(** * The class-variant resolver of rizzui

    A shallow embedding of [packages/ui/src/lib/variants] (the
    [createVariant] rules engine and its helpers) as it appears in the
    bundle [packages/ui/src/components/upload/file-input.tsx], together
    with the [fileInput] configuration declared by the [FileInput]
    component.

    JavaScript objects are association lists holding the own enumerable
    properties in [for ... in] order; property lookup takes the first
    binding of a key.  Properties inherited from [Object.prototype] are
    outside the model.  Numbers are the integer-valued ones whose decimal
    rendering is the plain digit string (no NaN, no fractions, no exponent
    notation). *)

From Stdlib Require Import ZArith String Ascii List Bool DecimalString Lia.
Import ListNotations.
Open Scope string_scope.
Open Scope list_scope.

(** ** JavaScript values and objects *)

Module Js.

(** The primitive values a prop, a default or a compound condition
    can hold. *)
Inductive value : Type :=
| VUndefined
| VNull
| VBool (b : bool)
| VString (s : string)
| VNumber (n : Z).

(** [a === b] on primitives. *)
Definition strictEq (a b : value) : bool :=
  match a, b with
  | VUndefined, VUndefined => true
  | VNull, VNull => true
  | VBool x, VBool y => Bool.eqb x y
  | VString x, VString y => String.eqb x y
  | VNumber x, VNumber y => Z.eqb x y
  | _, _ => false
  end.

(** [v === undefined || v === null]: the values [??] replaces. *)
Definition nullish (v : value) : bool :=
  match v with
  | VUndefined | VNull => true
  | _ => false
  end.

(** [a ?? b]. *)
Definition coalesce (a b : value) : value :=
  if nullish a then b else a.

(** [Boolean(v)]. *)
Definition truthy (v : value) : bool :=
  match v with
  | VUndefined | VNull => false
  | VBool b => b
  | VString s => negb (String.eqb s "")
  | VNumber n => negb (Z.eqb n 0)
  end.

(** [String(v)]. *)
Definition toString (v : value) : string :=
  match v with
  | VUndefined => "undefined"
  | VNull => "null"
  | VBool true => "true"
  | VBool false => "false"
  | VString s => s
  | VNumber n => NilZero.string_of_int (Z.to_int n)
  end.

(** An object: its own enumerable properties, in enumeration order. *)
Definition Obj (A : Type) : Type := list (string * A).

(** The keys [for (const k in o)] visits. *)
Definition keys {A : Type} (o : Obj A) : list string := map fst o.

(** [o[k]], with [None] for a property that is not there. *)
Fixpoint get {A : Type} (o : Obj A) (k : string) : option A :=
  match o with
  | [] => None
  | (k', v) :: rest => if String.eqb k' k then Some v else get rest k
  end.

(** [k in o]. *)
Definition has {A : Type} (o : Obj A) (k : string) : bool :=
  match get o k with
  | Some _ => true
  | None => false
  end.

(** [o[k]] on an object of primitives: a missing property reads as
    [undefined]. *)
Definition prop (o : Obj value) (k : string) : value :=
  match get o k with
  | Some v => v
  | None => VUndefined
  end.

(** The rest object of [const { k, ...rest } = o]. *)
Definition omit {A : Type} (k : string) (o : Obj A) : Obj A :=
  filter (fun kv => negb (String.eqb (fst kv) k)) o.

End Js.

Import Js.

(** ** The class-name joiner [cn]

    [cn] is imported from [../cn], which is not part of the bundle. *)

Module ClassNames.

Definition isSpace (c : ascii) : bool := Ascii.eqb c " "%char.

(** A well-formed class token: not empty, no space inside. *)
Fixpoint noSpace (s : string) : bool :=
  match s with
  | EmptyString => true
  | String c rest => negb (isSpace c) && noSpace rest
  end.

Definition isToken (t : string) : Prop :=
  t <> EmptyString /\ noSpace t = true.

(** Appends one character to a token under construction. *)
Definition snoc (cur : string) (c : ascii) : string :=
  (cur ++ String c EmptyString)%string.

(** Closes the token under construction, if there is one. *)
Definition flush (cur : string) (rest : list string) : list string :=
  match cur with
  | EmptyString => rest
  | _ => cur :: rest
  end.

(** The space-separated tokens of [s], scanning left to right with the
    token under construction in [cur]. *)
Fixpoint tokensFrom (cur : string) (s : string) : list string :=
  match s with
  | EmptyString => flush cur []
  | String c rest =>
      if isSpace c then flush cur (tokensFrom EmptyString rest)
      else tokensFrom (snoc cur c) rest
  end.

Definition tokens (s : string) : list string := tokensFrom EmptyString s.

(** The class tokens one argument carries: those of a string, none for
    an argument that is not a string. *)
Definition argTokens (v : value) : list string :=
  match v with
  | VString s => tokens s
  | _ => []
  end.

Definition allTokens (inputs : list value) : list string :=
  flat_map argTokens inputs.

Definition mem (t : string) (seen : list string) : bool :=
  existsb (String.eqb t) seen.

(** Keeps the first occurrence of every token that is not in [seen]. *)
Fixpoint uniq (seen : list string) (ts : list string) : list string :=
  match ts with
  | [] => []
  | t :: rest =>
      if mem t seen then uniq seen rest else t :: uniq (t :: seen) rest
  end.

Definition dedupe (ts : list string) : list string := uniq [] ts.

(** Modelled from the spec: [cn], the class-name joiner of
    [packages/ui/src/lib/cn], is missing from the sources.  The spec
    describes it as the utility that merges and deduplicates
    space-separated class tokens: the tokens of all arguments are
    collected in argument order, every token is kept once (at its first
    occurrence) and the result is the tokens separated by single
    spaces. *)
Definition cn (inputs : list value) : string :=
  String.concat " " (dedupe (allTokens inputs)).

End ClassNames.

(** ** Configuration types *)

(** [VariantValue = string | Record<string, string> | number]. *)
Inductive VariantValue : Type :=
| ClassString (s : string)
| SlotClasses (r : Obj string)
| Numeric (n : Z).

(** [VariantDefinition]: the values of one axis. *)
Definition VariantDefinition : Type := Obj VariantValue.

(** [Variants] and, in slots mode, [SlotsVariants]. *)
Definition Variants : Type := Obj VariantDefinition.

(** A property of a compound variant: an axis condition (a key of the
    axis or a boolean), or for [class] a string or a record of per-slot
    strings. *)
Inductive CompoundField : Type :=
| Prim (v : value)
| Rec (r : Obj string).

Definition CompoundVariant : Type := Obj CompoundField.

Definition DefaultVariants : Type := Obj value.

Definition Slots : Type := Obj string.

(** The props object handed to a variant function, [className]
    included. *)
Definition Props : Type := Obj value.

(** The configuration object [createVariant] receives.  An optional
    field is [None] when the property is missing or [undefined];
    [slots] keeps the two apart because [createVariant] tests both. *)
Record Config : Type := mkConfig {
  base : option string;
  slots : option (option Slots);
  variants : option Variants;
  compoundVariants : option (list CompoundVariant);
  defaultVariants : option DefaultVariants
}.

(** What [createVariant] returns: a function from props to a class
    string, or a function from props to a record of slot resolvers. *)
Inductive VariantFn : Type :=
| Regular (f : option Props -> string)
| Slotted (f : option Props -> Obj (option Props -> string)).

(** ** The resolver *)

(** [typeof v === 'string' && v] for a slot record entry. *)
Definition nonEmpty (s : string) : bool := negb (String.eqb s "").

(** The resolved value of an axis: [props[key] ?? defaults[key]]. *)
Definition resolved (props : Props) (defaults : DefaultVariants)
    (key : string) : value :=
  coalesce (prop props key) (prop defaults key).

(** The loop of [matchesCompoundVariant] over the keys still to visit. *)
Fixpoint matchesFrom (props : Props) (compound : CompoundVariant)
    (defaults : DefaultVariants) (ks : list string) : bool :=
  match ks with
  | [] => true
  | key :: rest =>
      if String.eqb key "class" then matchesFrom props compound defaults rest
      else
        let propValue := resolved props defaults key in
        match get compound key with
        | None | Some (Prim VUndefined) =>
            matchesFrom props compound defaults rest
        | Some (Prim (VBool false)) =>
            if negb (strictEq propValue (VBool false)) then false
            else matchesFrom props compound defaults rest
        | Some (Prim (VBool true)) =>
            if negb (truthy propValue) then false
            else matchesFrom props compound defaults rest
        | Some (Prim compoundValue) =>
            if negb (strictEq propValue compoundValue) then false
            else matchesFrom props compound defaults rest
        | Some (Rec _) => false
        end
  end.

Definition matchesCompoundVariant (props : Props)
    (compound : CompoundVariant) (defaults : DefaultVariants) : bool :=
  matchesFrom props compound defaults (keys compound).

(** The key under which a resolved value is looked up in the axis
    definition; [None] when the iteration is skipped because the value is
    a boolean whose string key is not in the definition. *)
Definition lookupKey (variantDef : VariantDefinition) (propValue : value)
    : option string :=
  match propValue with
  | VBool b =>
      let stringKey := if b then "true" else "false" in
      if has variantDef stringKey then Some stringKey else None
  | _ => Some (toString propValue)
  end.

(** One iteration of the axis loop of [resolveVariantClasses]. *)
Definition variantStep (props : Props) (variants : Variants)
    (defaults : DefaultVariants) (classes : list string)
    (variantKey : string) : list string :=
  let propValue := resolved props defaults variantKey in
  if nullish propValue then classes
  else
    match get variants variantKey with
    | None => classes
    | Some variantDef =>
        match lookupKey variantDef propValue with
        | None => classes
        | Some k =>
            match get variantDef k with
            | Some (ClassString s) =>
                if nonEmpty s then classes ++ [s] else classes
            | _ => classes
            end
        end
    end.

(** One iteration of the compound loop of [resolveVariantClasses]. *)
Definition compoundStep (props : Props) (defaults : DefaultVariants)
    (classes : list string) (compound : CompoundVariant) : list string :=
  if matchesCompoundVariant props compound defaults then
    match get compound "class" with
    | Some (Prim (VString s)) =>
        if nonEmpty s then classes ++ [s] else classes
    | _ => classes
    end
  else classes.

(** The [classes] array of [resolveVariantClasses] when it reaches
    [return]. *)
Definition variantClasses (props : Props) (variants : Variants)
    (compounds : list CompoundVariant) (defaults : DefaultVariants)
    : list string :=
  fold_left (compoundStep props defaults) compounds
    (fold_left (variantStep props variants defaults) (keys variants) []).

(** One iteration of the axis loop of [resolveSlotsVariantClasses]. *)
Definition slotVariantStep (slotName : string) (props : Props)
    (slotsVariants : Variants) (defaults : DefaultVariants)
    (classes : list string) (variantKey : string) : list string :=
  let propValue := resolved props defaults variantKey in
  if nullish propValue then classes
  else
    match get slotsVariants variantKey with
    | None => classes
    | Some variantDef =>
        match lookupKey variantDef propValue with
        | None => classes
        | Some k =>
            match get variantDef k with
            | Some (SlotClasses variantValue) =>
                match get variantValue slotName with
                | Some slotVariant =>
                    if nonEmpty slotVariant then classes ++ [slotVariant]
                    else classes
                | None => classes
                end
            | _ => classes
            end
        end
    end.

(** One iteration of the compound loop of
    [resolveSlotsVariantClasses]. *)
Definition slotCompoundStep (slotName : string) (props : Props)
    (defaults : DefaultVariants) (classes : list string)
    (compound : CompoundVariant) : list string :=
  if matchesCompoundVariant props compound defaults then
    match get compound "class" with
    | Some (Prim (VString s)) =>
        if nonEmpty s then classes ++ [s] else classes
    | Some (Rec r) =>
        match get r slotName with
        | Some c => if nonEmpty c then classes ++ [c] else classes
        | None => classes
        end
    | _ => classes
    end
  else classes.

(** The [classes] array of [resolveSlotsVariantClasses] when it reaches
    [return]. *)
Definition slotVariantClasses (slotName : string) (props : Props)
    (slotsVariants : option Variants) (compounds : list CompoundVariant)
    (defaults : DefaultVariants) : list string :=
  fold_left (slotCompoundStep slotName props defaults) compounds
    (match slotsVariants with
     | Some sv =>
         fold_left (slotVariantStep slotName props sv defaults) (keys sv) []
     | None => []
     end).

(** [x = d] in a destructuring pattern or parameter list. *)
Definition orDefault {A : Type} (x : option A) (d : A) : A :=
  match x with
  | Some a => a
  | None => d
  end.

(** The [className] a slot resolver reads from its optional argument:
    [slotProps?.className]. *)
Definition slotClassName (slotProps : option Props) : value :=
  match slotProps with
  | Some sp => prop sp "className"
  | None => VUndefined
  end.

Section Resolver.

(** The imported class-name joiner. *)
Variable cn : list value -> string.

Definition resolveVariantClasses (props : Props) (variants : Variants)
    (compounds : list CompoundVariant) (defaults : DefaultVariants)
    : string :=
  cn (map VString (variantClasses props variants compounds defaults)).

Definition resolveSlotsVariantClasses (slotName : string) (props : Props)
    (slotsVariants : option Variants) (compounds : list CompoundVariant)
    (defaults : DefaultVariants) : string :=
  cn (map VString
        (slotVariantClasses slotName props slotsVariants compounds defaults)).

Definition createVariantRegular (config : Config)
    : option Props -> string :=
  let base := orDefault (base config) "" in
  let variants := orDefault (variants config) [] in
  let compoundVariants := orDefault (compoundVariants config) [] in
  let defaultVariants := orDefault (defaultVariants config) [] in
  fun props =>
    let props := orDefault props [] in
    let className := prop props "className" in
    let variantProps := omit "className" props in
    let variantClasses :=
      resolveVariantClasses variantProps variants compoundVariants
        defaultVariants in
    cn [VString base; VString variantClasses; className].

(** The resolver stored under [slotName] by [createVariantSlots]. *)
Definition slotResolver (slots : Slots) (variants : Variants)
    (compoundVariants : list CompoundVariant)
    (defaultVariants : DefaultVariants) (props : Props)
    (slotName : string) : option Props -> string :=
  let baseClasses :=
    match get slots slotName with
    | Some b => VString b
    | None => VUndefined
    end in
  fun slotProps =>
    let slotVariantClasses :=
      resolveSlotsVariantClasses slotName props (Some variants)
        compoundVariants defaultVariants in
    cn [baseClasses; VString slotVariantClasses; slotClassName slotProps].

(** [slots] is the value of the [slots] property, which
    [createVariant] has found defined. *)
Definition createVariantSlots (config : Config) (slots : Slots)
    : option Props -> Obj (option Props -> string) :=
  let variants := orDefault (variants config) [] in
  let compoundVariants := orDefault (compoundVariants config) [] in
  let defaultVariants := orDefault (defaultVariants config) [] in
  fun props =>
    let props := orDefault props [] in
    map (fun slotName =>
           (slotName,
            slotResolver slots variants compoundVariants defaultVariants
              props slotName))
        (keys slots).

Definition createVariant (config : Config) : VariantFn :=
  match slots config with
  | Some (Some s) => Slotted (createVariantSlots config s)
  | _ => Regular (createVariantRegular config)
  end.

End Resolver.

(** A loop body that only pushes onto [classes]. *)
Definition pushes {X : Type} (step : list string -> X -> list string)
    : Prop :=
  forall classes x, step classes x = classes ++ step [] x.

(** ** The rules of the resolver, stated without loops

    The definitions of this part describe what the resolver is meant to
    compute; the theorems below compare them with the loops above. *)

Module Rules.

(** Whether one condition of a compound variant accepts the resolved
    value of its axis. *)
Definition conditionHolds (cond : CompoundField) (v : value) : bool :=
  match cond with
  | Prim VUndefined => true
  | Prim (VBool true) => truthy v
  | Prim (VBool false) => strictEq v (VBool false)
  | Prim c => strictEq v c
  | Rec _ => false
  end.


(** The value configured on an axis for the resolved value of that
    axis, if there is one. *)
Definition configured (variants : Variants) (props : Props)
    (defaults : DefaultVariants) (axis : string) : option VariantValue :=
  let v := resolved props defaults axis in
  if nullish v then None
  else
    match get variants axis with
    | Some def => get def (toString v)
    | None => None
    end.

(** Flat mode: the class string an axis contributes. *)
Definition axisClasses (variants : Variants) (props : Props)
    (defaults : DefaultVariants) (axis : string) : list string :=
  match configured variants props defaults axis with
  | Some (ClassString s) => [s]
  | _ => []
  end.

(** Flat mode: the class string a compound variant contributes. *)
Definition compoundClasses (props : Props) (defaults : DefaultVariants)
    (compound : CompoundVariant) : list string :=
  if matchesCompoundVariant props compound defaults then
    match get compound "class" with
    | Some (Prim (VString s)) => [s]
    | _ => []
    end
  else [].

(** Slots mode: the class string an axis contributes to a slot. *)
Definition slotAxisClasses (slotName : string) (variants : Variants)
    (props : Props) (defaults : DefaultVariants) (axis : string)
    : list string :=
  match configured variants props defaults axis with
  | Some (SlotClasses r) =>
      match get r slotName with
      | Some c => [c]
      | None => []
      end
  | _ => []
  end.

(** Slots mode: the class string a compound variant contributes to a
    slot. *)
Definition slotCompoundClasses (slotName : string) (props : Props)
    (defaults : DefaultVariants) (compound : CompoundVariant)
    : list string :=
  if matchesCompoundVariant props compound defaults then
    match get compound "class" with
    | Some (Prim (VString s)) => [s]
    | Some (Rec r) =>
        match get r slotName with
        | Some c => [c]
        | None => []
        end
    | _ => []
    end
  else [].

End Rules.

(** ** The [fileInput] configuration of the [FileInput] component *)

Module FileInput.

Definition slotBases : Slots :=
  [ ("container",
     "flex items-center peer w-full transition duration-200 rounded-(--border-radius) border-(length:--border-width)");
    ("input",
     "w-full border-0 bg-transparent p-0 focus:outline-none focus:ring-0");
    ("button",
     "file:inline-flex file:font-medium file:leading-none file:items-center file:justify-center file:border-0 file:focus-visible:ring-2 file:focus-visible:ring-opacity-50 file:bg-primary file:hover:enabled:bg-primary-dark file:focus-visible:ring-primary/30 file:text-primary-foreground file:rounded-[calc(var(--border-radius)-2px)]") ].

Definition slotVariants : Variants :=
  [ ("variant",
     [ ("outline",
        SlotClasses
          [ ("container",
             "bg-transparent focus-within::ring-[0.8px] ring-border border-border [&_input::placeholder]:text-gray-500 hover:border-primary focus-within::border-primary focus-within::ring-primary") ]);
       ("text",
        SlotClasses
          [ ("container",
             "border-0 focus-within::ring-2 bg-transparent [&_input::placeholder]:opacity-70 hover:text-primary-dark focus-within::ring-primary/30 text-primary") ]) ]);
    ("size",
     [ ("sm",
        SlotClasses
          [ ("container", "pr-2 py-1 text-xs h-8 pl-px");
            ("button", "file:h-7 file:px-2.5") ]);
       ("md",
        SlotClasses
          [ ("container", "pr-3.5 py-2 text-sm h-10 pl-px");
            ("button", "file:h-9 file:px-3.5") ]);
       ("lg",
        SlotClasses
          [ ("container", "pr-4 py-2 text-base h-12 pl-px");
            ("button", "file:h-11 file:px-4") ]) ]);
    ("disabled",
     [ ("true",
        SlotClasses
          [ ("container",
             "bg-muted/70! backdrop-blur cursor-not-allowed border-muted! text-muted-foreground!");
            ("input", "cursor-not-allowed placeholder:text-muted-foreground");
            ("button",
             "file:bg-muted-foreground file:text-foreground file:dark:text-muted") ]) ]);
    ("error",
     [ ("true",
        SlotClasses
          [ ("container",
             "border-red! hover:border-red! focus:border-red! ring-red!") ]) ]);
    ("clearable",
     [ ("true",
        SlotClasses
          [ ("input",
             "[&:placeholder-shown~.input-clear-btn]:opacity-0 [&:placeholder-shown~.input-clear-btn]:invisible [&:not(:placeholder-shown)~.input-clear-btn]:opacity-100 [&:not(:placeholder-shown)~.input-clear-btn]:visible") ]) ]) ].

Definition defaults : DefaultVariants :=
  [ ("variant", VString "outline"); ("size", VString "md") ].

Definition fileInput : Config :=
  {| base := None;
     slots := Some (Some slotBases);
     variants := Some slotVariants;
     compoundVariants := None;
     defaultVariants := Some defaults |}.

(** The props object the component builds from its own props. *)
Definition propsOf (variant size : string) (disabled error clearable : bool)
    : Props :=
  [ ("variant", VString variant); ("size", VString size);
    ("disabled", VBool disabled); ("error", VBool error);
    ("clearable", VBool clearable) ].

End FileInput.

(** ** Small configurations in the style of the module's documentation *)

Module Samples.

(** The [button] example of the module header, with a compound
    variant added. *)
Definition button : Config :=
  {| base := Some "px-4 py-2 rounded";
     slots := None;
     variants :=
       Some [ ("variant",
               [ ("primary", ClassString "bg-blue-500 text-white");
                 ("secondary", ClassString "bg-gray-500 text-white") ]);
              ("size",
               [ ("sm", ClassString "text-sm");
                 ("md", ClassString "text-base");
                 ("lg", ClassString "text-lg") ]);
              ("disabled", [ ("true", ClassString "opacity-50") ]) ];
     compoundVariants :=
       Some [ [ ("variant", Prim (VString "primary"));
                ("size", Prim (VString "lg"));
                ("class", Prim (VString "shadow-lg")) ];
              [ ("disabled", Prim (VBool false));
                ("variant", Prim (VString "secondary"));
                ("class", Prim (VString "hover:bg-primary")) ] ];
     defaultVariants :=
       Some [ ("variant", VString "primary"); ("size", VString "md") ] |}.

(** The [tab] example: a boolean axis with both keys. *)
Definition tab : Config :=
  {| base := Some "px-4 py-2";
     slots := None;
     variants :=
       Some [ ("selected",
               [ ("true", ClassString "bg-blue-500 text-white");
                 ("false", ClassString "bg-gray-200 text-gray-700") ]) ];
     compoundVariants := None;
     defaultVariants := None |}.

(** The [modal] example, with one compound variant for all slots and
    one for the panel only. *)
Definition modal : Config :=
  {| base := None;
     slots :=
       Some (Some [ ("root", "fixed inset-0"); ("panel", "bg-white rounded") ]);
     variants :=
       Some [ ("size",
               [ ("sm", SlotClasses [ ("panel", "max-w-sm") ]);
                 ("md", SlotClasses [ ("panel", "max-w-md") ]) ]) ];
     compoundVariants :=
       Some [ [ ("size", Prim (VString "md"));
                ("class", Prim (VString "z-50")) ];
              [ ("size", Prim (VString "md"));
                ("class", Rec [ ("panel", "shadow-lg") ]) ] ];
     defaultVariants := None |}.

(** The [modal] example as documented. *)
Definition docModal : Config :=
  {| base := None;
     slots :=
       Some (Some [ ("root", "fixed inset-0");
                    ("panel", "bg-white rounded") ]);
     variants :=
       Some [ ("size",
               [ ("sm", SlotClasses [ ("panel", "max-w-sm") ]);
                 ("md", SlotClasses [ ("panel", "max-w-md") ]) ]) ];
     compoundVariants := None;
     defaultVariants := None |}.

(** The result of calling the resolver of [slotName]. *)
Definition callSlot (config : Config) (props : option Props)
    (slotName : string) (slotProps : option Props) : option string :=
  match createVariant ClassNames.cn config with
  | Regular _ => None
  | Slotted f =>
      option_map (fun resolver => resolver slotProps)
        (get (f props) slotName)
  end.

End Samples.

(** ** Shapes of variant definitions *)

(** Whether a value of an axis is a plain class string. *)
Definition isClassString (v : VariantValue) : bool :=
  match v with
  | ClassString _ => true
  | _ => false
  end.

(** Whether a value of an axis is a record of per-slot classes. *)
Definition isSlotClasses (v : VariantValue) : bool :=
  match v with
  | SlotClasses _ => true
  | _ => false
  end.

(** No value of any axis passes [shape]. *)
Definition noValueIs (shape : VariantValue -> bool) (variants : Variants)
    : bool :=
  forallb (fun axis => forallb (fun kv => negb (shape (snd kv))) (snd axis))
    variants.

(** ** The [FileInput] component: what it computes for styling

    Of the component function this part keeps the calls of [fileInput]
    and [cn] and the conditions under which the optional parts are
    rendered.  The label's classes (they need [labelStyles], which is not
    in the bundle), the event handler and the attributes spread onto the
    [input] element are left out. *)

Module Component.

(** A [React.ReactNode] prop as far as the component tests it: a
    primitive, or an element, which is an object and so truthy. *)
Inductive ReactNode : Type :=
| Primitive (v : value)
| Element.

Definition nodeTruthy (n : ReactNode) : bool :=
  match n with
  | Primitive v => truthy v
  | Element => true
  end.

(** The props the component reads for styling; a prop the caller leaves
    out holds [VUndefined]. *)
Record FileInputProps : Type := mkProps {
  className : value;
  variant : value;
  size : value;
  disabled : value;
  label : ReactNode;
  error : value;
  clearable : value;
  helperText : ReactNode;
  inputClassName : value;
  errorClassName : value;
  helperClassName : value
}.

(** What the component hands to the elements it renders.  An optional
    part that is not rendered is [None]; [containerClass] and
    [inputClass] are [None] when a resolver the component destructures is
    not in the record [fileInput] returns. *)
Record View : Type := mkView {
  rootClass : string;
  labelShown : bool;
  containerClass : option string;
  inputClass : option string;
  clearShown : bool;
  helperClass : option string;
  errorClass : option string
}.

(** A parameter default [x = d] of a destructuring pattern: taken when
    the property is [undefined]. *)
Definition paramDefault (x d : value) : value :=
  match x with
  | VUndefined => d
  | _ => x
  end.

(** [a && b]. *)
Definition jsAnd (a b : value) : value :=
  if truthy a then b else a.

(** The object literal passed to [fileInput]. *)
Definition variantProps (p : FileInputProps) : Props :=
  [ ("variant", paramDefault (variant p) (VString "outline"));
    ("size", paramDefault (size p) (VString "md"));
    ("disabled", coalesce (disabled p) (VBool false));
    ("error", VBool (truthy (error p)));
    ("clearable", coalesce (clearable p) (VBool false)) ].

Section WithCn.

Variable cn : list value -> string.

(** The module-level constant [fileInput]. *)
Definition fileInputFn : option Props -> Obj (option Props -> string) :=
  match createVariant cn FileInput.fileInput with
  | Slotted f => f
  | Regular _ => fun _ => []
  end.

Definition FileInput (p : FileInputProps) : View :=
  let resolvers := fileInputFn (Some (variantProps p)) in
  let container := get resolvers "container" in
  let inputStyle := get resolvers "input" in
  let button := get resolvers "button" in
  {| rootClass :=
       cn [ VString "rizzui-file-input-root"; VString "flex flex-col";
            className p ];
     labelShown := nodeTruthy (label p);
     containerClass :=
       option_map
         (fun resolver => resolver (Some [ ("className", inputClassName p) ]))
         container;
     inputClass :=
       match inputStyle, button with
       | Some i, Some b => Some (cn [ VString (i None); VString (b None) ])
       | _, _ => None
       end;
     clearShown := truthy (clearable p);
     helperClass :=
       if negb (truthy (error p)) && nodeTruthy (helperText p) then
         Some (cn [ VString "rizzui-file-input-helper-text";
                    jsAnd (disabled p) (VString "text-muted-foreground");
                    helperClassName p ])
       else None;
     errorClass :=
       if truthy (error p) then
         Some (cn [ VString "rizzui-file-input-error-text";
                    errorClassName p ])
       else None |}.

End WithCn.

(** The same props with one of them replaced, as a caller that passes
    the prop differently would build them. *)
Definition withVariant (p : FileInputProps) (x : value) : FileInputProps :=
  {| className := className p; variant := x; size := size p;
     disabled := disabled p; label := label p; error := error p;
     clearable := clearable p; helperText := helperText p;
     inputClassName := inputClassName p;
     errorClassName := errorClassName p;
     helperClassName := helperClassName p |}.

Definition withSize (p : FileInputProps) (x : value) : FileInputProps :=
  {| className := className p; variant := variant p; size := x;
     disabled := disabled p; label := label p; error := error p;
     clearable := clearable p; helperText := helperText p;
     inputClassName := inputClassName p;
     errorClassName := errorClassName p;
     helperClassName := helperClassName p |}.

Definition withError (p : FileInputProps) (x : value) : FileInputProps :=
  {| className := className p; variant := variant p; size := size p;
     disabled := disabled p; label := label p; error := x;
     clearable := clearable p; helperText := helperText p;
     inputClassName := inputClassName p;
     errorClassName := errorClassName p;
     helperClassName := helperClassName p |}.

Definition withClearable (p : FileInputProps) (x : value) : FileInputProps :=
  {| className := className p; variant := variant p; size := size p;
     disabled := disabled p; label := label p; error := error p;
     clearable := x; helperText := helperText p;
     inputClassName := inputClassName p;
     errorClassName := errorClassName p;
     helperClassName := helperClassName p |}.

(** The props of [<FileInput label="File Input" />], the call of the
    test page. *)
Definition testPageProps : FileInputProps :=
  {| className := VUndefined;
     variant := VUndefined;
     size := VUndefined;
     disabled := VUndefined;
     label := Primitive (VString "File Input");
     error := VUndefined;
     clearable := VUndefined;
     helperText := Primitive VUndefined;
     inputClassName := VUndefined;
     errorClassName := VUndefined;
     helperClassName := VUndefined |}.

End Component.

(** * Facts *)

(** ** Objects *)

Section ObjFacts.

Context {A : Type}.

Lemma get_in_keys (o : Obj A) (k : string) :
  In k (keys o) -> exists v, get o k = Some v.
Proof.
  induction o as [| [k' v] o IH]; simpl; [tauto|].
  intros H. destruct (String.eqb_spec k' k) as [->|Hne].
  - now exists v.
  - destruct H as [H|H]; [contradiction|]. now apply IH.
Qed.

Lemma get_omit (o : Obj A) (k0 k : string) :
  get (omit k0 o) k = if String.eqb k k0 then None else get o k.
Proof.
  induction o as [| [k' v] o IH]; simpl.
  - now destruct (String.eqb k k0).
  - destruct (String.eqb_spec k' k0) as [E0|E0]; simpl.
    + rewrite IH. destruct (String.eqb_spec k k0) as [E1|E1]; [reflexivity|].
      destruct (String.eqb_spec k' k) as [E2|E2]; congruence.
    + rewrite IH. destruct (String.eqb_spec k' k) as [E2|E2]; [|reflexivity].
      destruct (String.eqb_spec k k0) as [E1|E1]; congruence.
Qed.

End ObjFacts.

Lemma strictEq_eq (a b : value) : strictEq a b = true <-> a = b.
Proof.
  destruct a, b; simpl; split; intros H; try congruence; try reflexivity.
  - apply Bool.eqb_prop in H. now subst.
  - injection H as ->. apply Bool.eqb_reflx.
  - apply String.eqb_eq in H. now subst.
  - injection H as ->. apply String.eqb_refl.
  - apply Z.eqb_eq in H. now subst.
  - injection H as ->. apply Z.eqb_refl.
Qed.

Lemma nonEmpty_true (s : string) : nonEmpty s = true <-> s <> "".
Proof.
  unfold nonEmpty. destruct (String.eqb_spec s ""); simpl; split;
    congruence.
Qed.

(** ** The class-name joiner *)

Module ClassNamesFacts.

Import ClassNames.

Lemma append_snoc (cur : string) (c : ascii) (t : string) :
  (cur ++ String c t)%string = (snoc cur c ++ t)%string.
Proof.
  unfold snoc. induction cur as [| a cur IH]; simpl; [reflexivity|].
  now rewrite IH.
Qed.

Lemma append_empty_r (s : string) : (s ++ "")%string = s.
Proof. induction s as [| a s IH]; simpl; [reflexivity | now rewrite IH]. Qed.

Lemma snoc_not_empty (cur : string) (c : ascii) : snoc cur c <> "".
Proof. unfold snoc. destruct cur; simpl; discriminate. Qed.

Lemma noSpace_snoc (cur : string) (c : ascii) :
  noSpace cur = true -> isSpace c = false -> noSpace (snoc cur c) = true.
Proof.
  unfold snoc. induction cur as [| a cur IH]; simpl; intros Hc Hs.
  - now rewrite Hs.
  - apply andb_true_iff in Hc as [Ha Hc]. rewrite Ha. simpl. now apply IH.
Qed.

(** Scanning a run of characters without a space moves it into the
    token under construction. *)
Lemma tokensFrom_run (t : string) :
  forall cur rest,
    noSpace t = true ->
    tokensFrom cur (t ++ rest)%string = tokensFrom (cur ++ t)%string rest.
Proof.
  induction t as [| c t IH]; simpl; intros cur rest Ht.
  - now rewrite append_empty_r.
  - apply andb_true_iff in Ht as [Hc Ht].
    apply negb_true_iff in Hc. rewrite Hc.
    rewrite IH by assumption. now rewrite <- append_snoc.
Qed.

Lemma flush_token (t : string) (rest : list string) :
  t <> "" -> flush t rest = t :: rest.
Proof. destruct t; [congruence | reflexivity]. Qed.

(** Every token the scanner produces is well formed. *)
Lemma tokensFrom_wf (s : string) :
  forall cur, noSpace cur = true -> Forall isToken (tokensFrom cur s).
Proof.
  induction s as [| c s IH]; simpl; intros cur Hcur.
  - destruct cur; simpl; constructor; [|constructor].
    split; [discriminate | assumption].
  - destruct (isSpace c) eqn:Hc.
    + destruct cur; simpl.
      * now apply IH.
      * constructor; [split; [discriminate | assumption] | now apply IH].
    + apply IH. now apply noSpace_snoc.
Qed.

Lemma tokens_wf (s : string) : Forall isToken (tokens s).
Proof. now apply tokensFrom_wf. Qed.

(** Joining well-formed tokens with single spaces and scanning the
    result gives the tokens back. *)
Lemma tokens_concat (ts : list string) :
  Forall isToken ts -> tokens (String.concat " " ts) = ts.
Proof.
  unfold tokens. induction ts as [| t ts IH]; intros Hts; [reflexivity|].
  inversion Hts as [| ? ? [Hne Hns] Hrest]; subst.
  destruct ts as [| u ts].
  - simpl. rewrite <- (append_empty_r t) at 1.
    rewrite tokensFrom_run by assumption. simpl.
    now apply flush_token.
  - change (String.concat " " (t :: u :: ts))
      with (t ++ String " "%char (String.concat " " (u :: ts)))%string.
    rewrite tokensFrom_run by assumption.
    cbn [append tokensFrom]. change (isSpace " ") with true. cbn iota.
    rewrite flush_token by assumption. f_equal. now apply IH.
Qed.

Lemma mem_true (t : string) (seen : list string) :
  mem t seen = true <-> In t seen.
Proof.
  unfold mem. rewrite existsb_exists. split.
  - intros [x [Hin Heq]]. apply String.eqb_eq in Heq. now subst.
  - intros Hin. exists t. split; [assumption | apply String.eqb_refl].
Qed.

Lemma mem_false (t : string) (seen : list string) :
  mem t seen = false <-> ~ In t seen.
Proof.
  rewrite <- mem_true. destruct (mem t seen); split; congruence.
Qed.

(** [uniq] looks at [seen] only through membership. *)
Lemma uniq_ext (ts : list string) :
  forall seen seen',
    (forall t, In t seen <-> In t seen') -> uniq seen ts = uniq seen' ts.
Proof.
  induction ts as [| t ts IH]; simpl; intros seen seen' Hext; [reflexivity|].
  destruct (mem t seen) eqn:Hm.
  - apply mem_true in Hm. apply Hext in Hm. apply mem_true in Hm.
    rewrite Hm. now apply IH.
  - assert (Hm' : mem t seen' = false).
    { apply mem_false. apply mem_false in Hm. now rewrite <- Hext. }
    rewrite Hm'. f_equal. apply IH. intros x. simpl. now rewrite Hext.
Qed.

Lemma uniq_in (ts : list string) :
  forall seen t, In t (uniq seen ts) <-> In t ts /\ ~ In t seen.
Proof.
  induction ts as [| u ts IH]; simpl; intros seen t; [tauto|].
  destruct (mem u seen) eqn:Hm.
  - apply mem_true in Hm. rewrite IH. split.
    + tauto.
    + intros [[->|H] Hn]; tauto.
  - apply mem_false in Hm. simpl. rewrite IH. simpl. split.
    + intros [->|[H Hn]]; tauto.
    + intros [[->|H] Hn]; [tauto|].
      destruct (String.eqb_spec u t) as [->|Hne]; [tauto|]. right. tauto.
Qed.

Lemma uniq_NoDup (ts : list string) : forall seen, NoDup (uniq seen ts).
Proof.
  induction ts as [| u ts IH]; simpl; intros seen; [constructor|].
  destruct (mem u seen); [apply IH|].
  constructor; [|apply IH]. rewrite uniq_in. simpl. tauto.
Qed.

Lemma uniq_Forall (P : string -> Prop) (ts : list string) :
  forall seen, Forall P ts -> Forall P (uniq seen ts).
Proof.
  intros seen H. rewrite Forall_forall in *. intros t Ht.
  apply uniq_in in Ht. now apply H.
Qed.

Lemma uniq_app (a : list string) :
  forall seen b, uniq seen (a ++ b) = uniq seen a ++ uniq (a ++ seen) b.
Proof.
  induction a as [| x a IH]; simpl; intros seen b; [reflexivity|].
  destruct (mem x seen) eqn:Hm.
  - rewrite IH. f_equal. apply uniq_ext. intros t. simpl.
    apply mem_true in Hm. rewrite !in_app_iff. split; [tauto|].
    intros [->|H]; tauto.
  - simpl. f_equal. rewrite IH. f_equal. apply uniq_ext. intros t.
    simpl. rewrite !in_app_iff. simpl. tauto.
Qed.

(** Deduplicating twice is deduplicating once. *)
Lemma uniq_uniq (ts : list string) :
  forall seen seen',
    (forall t, In t seen' -> In t seen) ->
    uniq seen (uniq seen' ts) = uniq seen ts.
Proof.
  induction ts as [| x ts IH]; simpl; intros seen seen' Hsub; [reflexivity|].
  destruct (mem x seen') eqn:Hm'.
  - apply mem_true in Hm'. apply Hsub in Hm'. apply mem_true in Hm'.
    rewrite Hm'. now apply IH.
  - simpl. destruct (mem x seen) eqn:Hm.
    + apply IH. intros t [->|H]; [now apply mem_true | now apply Hsub].
    + f_equal. apply IH. intros t [->|H]; simpl; [tauto|].
      right. now apply Hsub.
Qed.

Lemma dedupe_nested (a l c : list string) :
  dedupe (a ++ dedupe l ++ c) = dedupe (a ++ l ++ c).
Proof.
  unfold dedupe. rewrite !uniq_app. f_equal. f_equal.
  - apply uniq_uniq. simpl. tauto.
  - apply uniq_ext. intros t. rewrite !in_app_iff, uniq_in. simpl. tauto.
Qed.

Lemma allTokens_app (a b : list value) :
  allTokens (a ++ b) = allTokens a ++ allTokens b.
Proof. apply flat_map_app. Qed.

Lemma allTokens_wf (inputs : list value) : Forall isToken (allTokens inputs).
Proof.
  unfold allTokens. induction inputs as [| v inputs IH]; simpl.
  - constructor.
  - apply Forall_app. split; [|assumption].
    destruct v; simpl; try constructor. apply tokens_wf.
Qed.

(** The tokens of a merged string are the deduplicated tokens of the
    arguments. *)
Lemma tokens_cn (inputs : list value) :
  tokens (cn inputs) = dedupe (allTokens inputs).
Proof.
  unfold cn. apply tokens_concat. apply uniq_Forall, allTokens_wf.
Qed.

(** Merging an already merged group again changes nothing. *)
Lemma cn_nested (a l c : list value) :
  cn (a ++ VString (cn l) :: c) = cn (a ++ l ++ c).
Proof.
  unfold cn at 1 3. f_equal.
  rewrite !allTokens_app. change (VString (cn l) :: c)
    with ([VString (cn l)] ++ c). rewrite allTokens_app.
  unfold allTokens at 2. simpl. rewrite app_nil_r, tokens_cn.
  apply dedupe_nested.
Qed.

(** An empty class string carries no token. *)
Lemma allTokens_nonEmpty (l : list string) :
  allTokens (map VString (filter nonEmpty l)) = allTokens (map VString l).
Proof.
  unfold allTokens. induction l as [| s l IH]; simpl; [reflexivity|].
  destruct (nonEmpty s) eqn:Hs; simpl; rewrite IH; [reflexivity|].
  unfold nonEmpty in Hs. apply negb_false_iff, String.eqb_eq in Hs.
  now subst.
Qed.

End ClassNamesFacts.

(** ** The loops of the resolver *)




Section LoopFacts.

Variables (props : Props) (defaults : DefaultVariants).

Lemma fold_left_pushes {X : Type} (step : list string -> X -> list string)
    (xs : list X) :
  pushes step ->
  forall classes,
    fold_left step xs classes = classes ++ flat_map (step []) xs.
Proof.
  intros Hstep. induction xs as [| x xs IH]; simpl; intros classes.
  - now rewrite app_nil_r.
  - rewrite IH, (Hstep classes x). now rewrite <- app_assoc.
Qed.

Lemma variantStep_pushes (variants : Variants) :
  pushes (variantStep props variants defaults).
Proof.
  intros classes k. unfold variantStep.
  destruct (nullish _); [now rewrite app_nil_r|].
  destruct (get variants k) as [def|]; [|now rewrite app_nil_r].
  destruct (lookupKey def _) as [k'|]; [|now rewrite app_nil_r].
  destruct (get def k') as [[s| |]|]; try now rewrite app_nil_r.
  destruct (nonEmpty s); [reflexivity | now rewrite app_nil_r].
Qed.

Lemma compoundStep_pushes : pushes (compoundStep props defaults).
Proof.
  intros classes c. unfold compoundStep.
  destruct (matchesCompoundVariant _ _ _); [|now rewrite app_nil_r].
  destruct (get c "class") as [[[| | |s|]|]|]; try now rewrite app_nil_r.
  destruct (nonEmpty s); [reflexivity | now rewrite app_nil_r].
Qed.

Lemma slotVariantStep_pushes (slotName : string) (variants : Variants) :
  pushes (slotVariantStep slotName props variants defaults).
Proof.
  intros classes k. unfold slotVariantStep.
  destruct (nullish _); [now rewrite app_nil_r|].
  destruct (get variants k) as [def|]; [|now rewrite app_nil_r].
  destruct (lookupKey def _) as [k'|]; [|now rewrite app_nil_r].
  destruct (get def k') as [[| r |]|]; try now rewrite app_nil_r.
  destruct (get r slotName) as [c|]; [|now rewrite app_nil_r].
  destruct (nonEmpty c); [reflexivity | now rewrite app_nil_r].
Qed.

Lemma slotCompoundStep_pushes (slotName : string) :
  pushes (slotCompoundStep slotName props defaults).
Proof.
  intros classes c. unfold slotCompoundStep.
  destruct (matchesCompoundVariant _ _ _); [|now rewrite app_nil_r].
  destruct (get c "class") as [[[| | |s|]|r]|]; try now rewrite app_nil_r.
  - destruct (nonEmpty s); [reflexivity | now rewrite app_nil_r].
  - destruct (get r slotName) as [x|]; [|now rewrite app_nil_r].
    destruct (nonEmpty x); [reflexivity | now rewrite app_nil_r].
Qed.

(** The key a resolved value is looked up under finds what
    [String(value)] finds. *)
Lemma lookupKey_get (def : VariantDefinition) (v : value) :
  match lookupKey def v with
  | Some k => get def k
  | None => None
  end = get def (toString v).
Proof.
  destruct v as [| | b | s | n]; simpl; try reflexivity.
  unfold has. destruct b; simpl.
  - destruct (get def "true") eqn:E; simpl; congruence.
  - destruct (get def "false") eqn:E; simpl; congruence.
Qed.

Lemma variantStep_rule (variants : Variants) (axis : string) :
  variantStep props variants defaults [] axis
  = filter nonEmpty (Rules.axisClasses variants props defaults axis).
Proof.
  unfold variantStep, Rules.axisClasses, Rules.configured.
  destruct (nullish _); [reflexivity|].
  destruct (get variants axis) as [def|]; [|reflexivity].
  rewrite <- lookupKey_get.
  destruct (lookupKey def _) as [k|]; [|reflexivity].
  now destruct (get def k) as [[s| |]|].
Qed.

Lemma compoundStep_rule (compound : CompoundVariant) :
  compoundStep props defaults [] compound
  = filter nonEmpty (Rules.compoundClasses props defaults compound).
Proof.
  unfold compoundStep, Rules.compoundClasses.
  destruct (matchesCompoundVariant _ _ _); [|reflexivity].
  now destruct (get compound "class") as [[[| | |s|]|]|].
Qed.

Lemma slotVariantStep_rule (slotName : string) (variants : Variants)
    (axis : string) :
  slotVariantStep slotName props variants defaults [] axis
  = filter nonEmpty
      (Rules.slotAxisClasses slotName variants props defaults axis).
Proof.
  unfold slotVariantStep, Rules.slotAxisClasses, Rules.configured.
  destruct (nullish _); [reflexivity|].
  destruct (get variants axis) as [def|]; [|reflexivity].
  rewrite <- lookupKey_get.
  destruct (lookupKey def _) as [k|]; [|reflexivity].
  destruct (get def k) as [[| r |]|]; try reflexivity.
  now destruct (get r slotName) as [c|].
Qed.

Lemma slotCompoundStep_rule (slotName : string)
    (compound : CompoundVariant) :
  slotCompoundStep slotName props defaults [] compound
  = filter nonEmpty
      (Rules.slotCompoundClasses slotName props defaults compound).
Proof.
  unfold slotCompoundStep, Rules.slotCompoundClasses.
  destruct (matchesCompoundVariant _ _ _); [|reflexivity].
  destruct (get compound "class") as [[[| | |s|]|r]|]; try reflexivity.
  now destruct (get r slotName) as [c|].
Qed.

Lemma filter_flat_map {X Y : Type} (p : Y -> bool) (g h : X -> list Y)
    (xs : list X) :
  (forall x, g x = filter p (h x)) ->
  flat_map g xs = filter p (flat_map h xs).
Proof.
  intros Hgh. induction xs as [| x xs IH]; simpl; [reflexivity|].
  now rewrite filter_app, IH, Hgh.
Qed.

(** The [classes] array of flat mode: the non-empty class strings of
    the axes, then those of the compound variants. *)
Lemma variantClasses_rule (variants : Variants)
    (compounds : list CompoundVariant) :
  variantClasses props variants compounds defaults
  = filter nonEmpty
      (flat_map (Rules.axisClasses variants props defaults) (keys variants)
       ++ flat_map (Rules.compoundClasses props defaults) compounds).
Proof.
  unfold variantClasses.
  rewrite (fold_left_pushes _ _ compoundStep_pushes).
  rewrite (fold_left_pushes _ _ (variantStep_pushes variants)).
  simpl. rewrite filter_app. f_equal.
  - apply filter_flat_map. apply variantStep_rule.
  - apply filter_flat_map. apply compoundStep_rule.
Qed.

(** The [classes] array of slots mode, likewise. *)
Lemma slotVariantClasses_rule (slotName : string) (variants : Variants)
    (compounds : list CompoundVariant) :
  slotVariantClasses slotName props (Some variants) compounds defaults
  = filter nonEmpty
      (flat_map (Rules.slotAxisClasses slotName variants props defaults)
         (keys variants)
       ++ flat_map (Rules.slotCompoundClasses slotName props defaults)
            compounds).
Proof.
  unfold slotVariantClasses.
  rewrite (fold_left_pushes _ _ (slotCompoundStep_pushes slotName)).
  rewrite (fold_left_pushes _ _ (slotVariantStep_pushes slotName variants)).
  simpl. rewrite filter_app. f_equal.
  - apply filter_flat_map. apply slotVariantStep_rule.
  - apply filter_flat_map. apply slotCompoundStep_rule.
Qed.


End LoopFacts.

(** ** Props and defaults are read through the resolved values only *)

Section ResolvedOnly.

Variables (props props' : Props) (defaults defaults' : DefaultVariants).

Hypothesis same :
  forall key, resolved props defaults key = resolved props' defaults' key.

Lemma fold_left_same {X : Type} (f g : list string -> X -> list string)
    (xs : list X) :
  (forall classes x, f classes x = g classes x) ->
  forall classes, fold_left f xs classes = fold_left g xs classes.
Proof.
  intros Hfg. induction xs as [| x xs IH]; simpl; intros classes.
  - reflexivity.
  - now rewrite Hfg, IH.
Qed.

Lemma matchesFrom_same (compound : CompoundVariant) (ks : list string) :
  matchesFrom props compound defaults ks
  = matchesFrom props' compound defaults' ks.
Proof.
  induction ks as [| k ks IH]; simpl; [reflexivity|].
  now rewrite same, IH.
Qed.

Lemma matchesCompoundVariant_same (compound : CompoundVariant) :
  matchesCompoundVariant props compound defaults
  = matchesCompoundVariant props' compound defaults'.
Proof. apply matchesFrom_same. Qed.

Lemma variantClasses_same (variants : Variants)
    (compounds : list CompoundVariant) :
  variantClasses props variants compounds defaults
  = variantClasses props' variants compounds defaults'.
Proof.
  unfold variantClasses.
  rewrite (fold_left_same (variantStep props variants defaults)
             (variantStep props' variants defaults')).
  - apply fold_left_same. intros classes c. unfold compoundStep.
    now rewrite matchesCompoundVariant_same.
  - intros classes k. unfold variantStep. now rewrite same.
Qed.

Lemma slotVariantClasses_same (slotName : string)
    (slotsVariants : option Variants) (compounds : list CompoundVariant) :
  slotVariantClasses slotName props slotsVariants compounds defaults
  = slotVariantClasses slotName props' slotsVariants compounds defaults'.
Proof.
  unfold slotVariantClasses.
  assert (Hfirst :
    match slotsVariants with
    | Some sv =>
        fold_left (slotVariantStep slotName props sv defaults) (keys sv) []
    | None => []
    end
    = match slotsVariants with
      | Some sv =>
          fold_left (slotVariantStep slotName props' sv defaults')
            (keys sv) []
      | None => []
      end).
  { destruct slotsVariants as [sv|]; [|reflexivity].
    apply fold_left_same. intros classes k. unfold slotVariantStep.
    now rewrite same. }
  rewrite Hfirst. apply fold_left_same. intros classes c.
  unfold slotCompoundStep. now rewrite matchesCompoundVariant_same.
Qed.

End ResolvedOnly.

Lemma coalesce_same (v : value) : coalesce v v = v.
Proof. unfold coalesce. now destruct (nullish v). Qed.

Lemma prop_cons (k : string) (v : value) (o : Obj value) (key : string) :
  prop ((k, v) :: o) key = if String.eqb k key then v else prop o key.
Proof. unfold prop. simpl. now destruct (String.eqb k key). Qed.



Lemma get_map_keys {B : Type} (g : string -> B) (ks : list string)
    (k : string) :
  In k ks -> get (map (fun x => (x, g x)) ks) k = Some (g k).
Proof.
  induction ks as [| x ks IH]; simpl; [tauto|].
  intros H. destruct (String.eqb_spec x k) as [E|E].
  - now subst x.
  - destruct H as [H|H]; [contradiction | now apply IH].
Qed.

Lemma get_map_keys_none {B : Type} (g : string -> B) (ks : list string)
    (k : string) :
  ~ In k ks -> get (map (fun x => (x, g x)) ks) k = None.
Proof.
  induction ks as [| x ks IH]; simpl; [reflexivity|].
  intros H. destruct (String.eqb_spec x k) as [E|E]; [tauto|].
  apply IH. tauto.
Qed.

Lemma keys_map_keys {B : Type} (g : string -> B) (ks : list string) :
  keys (map (fun x => (x, g x)) ks) = ks.
Proof.
  unfold keys. rewrite map_map. simpl. apply map_id.
Qed.

Lemma get_some_in_keys {A : Type} (o : Obj A) (k : string) (v : A) :
  get o k = Some v -> In k (keys o).
Proof.
  induction o as [| [k' v'] o IH]; simpl; [discriminate|].
  destruct (String.eqb_spec k' k) as [E|E]; [now left|].
  intros H. right. now apply IH.
Qed.

(** ** The examples of the module's documentation, evaluated *)

Module DocExamples.

(** [createVariantRegular]'s example:
    [button({ variant: 'primary' })] is ['px-4 py-2 bg-blue-500']. *)
Example regular_button :
  createVariantRegular ClassNames.cn
    {| base := Some "px-4 py-2";
       slots := None;
       variants :=
         Some [ ("variant",
                 [ ("primary", ClassString "bg-blue-500");
                   ("secondary", ClassString "bg-gray-500") ]) ];
       compoundVariants := None;
       defaultVariants := None |}
    (Some [ ("variant", VString "primary") ])
  = "px-4 py-2 bg-blue-500".
Proof. reflexivity. Qed.

(** [createVariantSlots]'s example: with [modal({ size: 'md' })],
    [root()] is ['fixed inset-0'] and [panel({ className: 'custom' })]
    is ['bg-white rounded max-w-md custom']. *)
Example slots_modal_root :
  Samples.callSlot Samples.docModal (Some [ ("size", VString "md") ]) "root" None
  = Some "fixed inset-0".
Proof. reflexivity. Qed.

Example slots_modal_panel :
  Samples.callSlot Samples.docModal (Some [ ("size", VString "md") ]) "panel"
    (Some [ ("className", VString "custom") ])
  = Some "bg-white rounded max-w-md custom".
Proof. reflexivity. Qed.

(** [resolveSlotsVariantClasses]'s example: slot [panel] under
    [{ size: 'md' }] resolves to ['max-w-md']. *)
Example slots_panel_md :
  resolveSlotsVariantClasses ClassNames.cn "panel"
    [ ("size", VString "md") ]
    (Some [ ("size",
             [ ("sm", SlotClasses [ ("panel", "max-w-sm") ]);
               ("md", SlotClasses [ ("panel", "max-w-md") ]) ]) ])
    [] []
  = "max-w-md".
Proof. reflexivity. Qed.

(** [matchesCompoundVariant]'s examples. *)
Example compound_matches :
  matchesCompoundVariant
    [ ("variant", VString "primary"); ("size", VString "lg") ]
    [ ("variant", Prim (VString "primary")); ("size", Prim (VString "lg"));
      ("class", Prim (VString "shadow-lg")) ] []
  = true
  /\ matchesCompoundVariant
       [ ("variant", VString "primary"); ("size", VString "md") ]
       [ ("variant", Prim (VString "primary"));
         ("size", Prim (VString "lg"));
         ("class", Prim (VString "shadow-lg")) ] []
     = false.
Proof. split; reflexivity. Qed.

Example compound_false_needs_false :
  matchesCompoundVariant
    [ ("disabled", VBool false); ("variant", VString "outline") ]
    [ ("disabled", Prim (VBool false));
      ("variant", Prim (VString "outline"));
      ("class", Prim (VString "hover:bg-primary")) ] []
  = true
  /\ matchesCompoundVariant
       [ ("disabled", VBool true); ("variant", VString "outline") ]
       [ ("disabled", Prim (VBool false));
         ("variant", Prim (VString "outline"));
         ("class", Prim (VString "hover:bg-primary")) ] []
     = false
  /\ matchesCompoundVariant
       [ ("disabled", VUndefined); ("variant", VString "outline") ]
       [ ("disabled", Prim (VBool false));
         ("variant", Prim (VString "outline"));
         ("class", Prim (VString "hover:bg-primary")) ] []
     = false.
Proof. repeat split; reflexivity. Qed.

(** What the [FileInput] component gets for a default, error-free,
    enabled input: the [button] slot. *)
Example fileInput_button :
  Samples.callSlot FileInput.fileInput
    (Some (FileInput.propsOf "outline" "md" false false false))
    "button" None
  = Some
      "file:inline-flex file:font-medium file:leading-none file:items-center file:justify-center file:border-0 file:focus-visible:ring-2 file:focus-visible:ring-opacity-50 file:bg-primary file:hover:enabled:bg-primary-dark file:focus-visible:ring-primary/30 file:text-primary-foreground file:rounded-[calc(var(--border-radius)-2px)] file:h-9 file:px-3.5".
Proof. vm_compute. reflexivity. Qed.

End DocExamples.

(** The record [createVariantSlots] returns binds every declared slot to
    its resolver. *)
Lemma createVariantSlots_get (cn : list value -> string) (config : Config)
    (declared : Slots) (props : option Props) (slotName : string)
    (baseClasses : string) :
  get declared slotName = Some baseClasses ->
  exists resolver,
    get (createVariantSlots cn config declared props) slotName
    = Some resolver
    /\ forall slotProps,
         resolver slotProps
         = cn [ VString baseClasses;
                VString
                  (resolveSlotsVariantClasses cn slotName
                     (orDefault props [])
                     (Some (orDefault (variants config) []))
                     (orDefault (compoundVariants config) [])
                     (orDefault (defaultVariants config) []));
                slotClassName slotProps ].
Proof.
  intros Hbase. unfold createVariantSlots. eexists. split.
  - apply get_map_keys. now apply (get_some_in_keys _ _ baseClasses).
  - intros slotProps. unfold slotResolver. now rewrite Hbase.
Qed.

(** * The claims *)

(** C1.  [createVariant] has two modes and the shape of the configuration
    selects between them.  When the configuration has a defined [slots]
    field the result is a function that, applied to a props object,
    returns a record whose keys are the declared slot names, each bound to
    a resolver that merges the slot's base classes, the slot's variant
    classes (resolved by [resolveSlotsVariantClasses] from the props of
    that one call, the same for every slot) and the resolver's own
    [className].  In every other case the result is a function that,
    applied to a props object, returns one class string.  This holds
    whatever function [cn] is. *)
Theorem createVariant_two_modes (cn : list value -> string)
    (config : Config) :
  match slots config with
  | Some (Some declared) =>
      exists f,
        createVariant cn config = Slotted f /\
        forall props,
          keys (f props) = keys declared /\
          forall slotName,
            In slotName (keys declared) ->
            exists resolver baseClasses,
              get (f props) slotName = Some resolver /\
              get declared slotName = Some baseClasses /\
              forall slotProps,
                resolver slotProps
                = cn [ VString baseClasses;
                       VString
                         (resolveSlotsVariantClasses cn slotName
                            (orDefault props [])
                            (Some (orDefault (variants config) []))
                            (orDefault (compoundVariants config) [])
                            (orDefault (defaultVariants config) []));
                       slotClassName slotProps ]
  | _ =>
      exists f,
        createVariant cn config = Regular f /\
        forall props,
          f props
          = cn [ VString (orDefault (base config) "");
                 VString
                   (resolveVariantClasses cn
                      (omit "className" (orDefault props []))
                      (orDefault (variants config) [])
                      (orDefault (compoundVariants config) [])
                      (orDefault (defaultVariants config) []));
                 prop (orDefault props []) "className" ]
  end.
Proof.
  unfold createVariant.
  destruct (slots config) as [[declared|]|].
  - exists (createVariantSlots cn config declared). split; [reflexivity|].
    intros props. split.
    + apply keys_map_keys.
    + intros slotName Hin.
      destruct (get_in_keys declared slotName Hin) as [baseClasses Hbase].
      destruct (createVariantSlots_get cn config declared props slotName
                  baseClasses Hbase) as [resolver [Hget Hcall]].
      now exists resolver, baseClasses.
  - exists (createVariantRegular cn config). split; reflexivity.
  - exists (createVariantRegular cn config). split; reflexivity.
Qed.

Lemma cn_drop_empty (a : list value) (l : list string) (c : list value) :
  ClassNames.cn (a ++ map VString (filter nonEmpty l) ++ c)
  = ClassNames.cn (a ++ map VString l ++ c).
Proof.
  unfold ClassNames.cn. f_equal. f_equal.
  rewrite !ClassNamesFacts.allTokens_app.
  now rewrite ClassNamesFacts.allTokens_nonEmpty.
Qed.

(** Merging a base, a merged group of class strings and a [className] is
    merging the base, the class strings and the [className], and empty
    class strings may be left in the group. *)
Lemma cn_group (b : value) (l : list string) (c : value) :
  ClassNames.cn
    [b; VString (ClassNames.cn (map VString (filter nonEmpty l))); c]
  = ClassNames.cn (b :: map VString l ++ [c]).
Proof.
  etransitivity.
  - exact (ClassNamesFacts.cn_nested [b] _ [c]).
  - exact (cn_drop_empty [b] l [c]).
Qed.

(** C2.  In flat mode (no [slots] field, or an undefined one) the function
    returned by [createVariant] returns the merge by [cn] of: the base
    classes; then, for each declared variant axis in declaration order, the
    class string configured for the resolved value of that axis, an axis
    whose resolved value has no class string in the definition
    contributing nothing; then the class of each matching compound
    variant, in order; then the caller's [className].  The variant props
    are the props without [className]. *)
Theorem flat_result_is_merge (config : Config) (props : option Props) :
  slots config = None \/ slots config = Some None ->
  exists f,
    createVariant ClassNames.cn config = Regular f /\
    f props
    = ClassNames.cn
        (VString (orDefault (base config) "")
         :: map VString
              (flat_map
                 (Rules.axisClasses (orDefault (variants config) [])
                    (omit "className" (orDefault props []))
                    (orDefault (defaultVariants config) []))
                 (keys (orDefault (variants config) []))
               ++ flat_map
                    (Rules.compoundClasses
                       (omit "className" (orDefault props []))
                       (orDefault (defaultVariants config) []))
                    (orDefault (compoundVariants config) []))
         ++ [prop (orDefault props []) "className"]).
Proof.
  intros Hflat. exists (createVariantRegular ClassNames.cn config). split.
  - unfold createVariant. now destruct Hflat as [-> | ->].
  - unfold createVariantRegular, resolveVariantClasses.
    rewrite variantClasses_rule. apply cn_group.
Qed.

(** Witness of C2: the documented [button] configuration, called with
    [{ variant: 'secondary', disabled: false, className: 'x  y px-4' }]. *)
Lemma flat_result_is_merge_witness :
  exists f,
    createVariant ClassNames.cn Samples.button = Regular f /\
    f (Some [ ("variant", VString "secondary"); ("disabled", VBool false);
              ("className", VString "x  y px-4") ])
    = "px-4 py-2 rounded bg-gray-500 text-white text-base hover:bg-primary x y".
Proof.
  destruct (flat_result_is_merge Samples.button
              (Some [ ("variant", VString "secondary");
                      ("disabled", VBool false);
                      ("className", VString "x  y px-4") ]))
    as [f [Hf Hres]].
  - left. reflexivity.
  - exists f. split; [exact Hf|]. rewrite Hres. vm_compute. reflexivity.
Defined.



Lemma matchesFrom_skip (props : Props) (defaults : DefaultVariants)
    (axis : string) (field : CompoundField) (rest : CompoundVariant)
    (ks : list string) :
  ~ In axis ks ->
  matchesFrom props ((axis, field) :: rest) defaults ks
  = matchesFrom props rest defaults ks.
Proof.
  induction ks as [| k ks IH]; simpl; [reflexivity|].
  intros Hout.
  destruct (String.eqb_spec axis k) as [E|E]; [symmetry in E; tauto|].
  rewrite IH by tauto. reflexivity.
Qed.

(** A compound variant matches when its first condition is accepted and
    the remaining ones are. *)
Lemma matchesCompoundVariant_cons (props : Props)
    (defaults : DefaultVariants) (axis : string) (c : value)
    (rest : CompoundVariant) :
  axis <> "class" -> ~ In axis (keys rest) ->
  matchesCompoundVariant props ((axis, Prim c) :: rest) defaults
  = Rules.conditionHolds (Prim c) (resolved props defaults axis)
    && matchesCompoundVariant props rest defaults.
Proof.
  intros Hne Hout. unfold matchesCompoundVariant. simpl.
  apply String.eqb_neq in Hne. rewrite Hne, String.eqb_refl.
  rewrite (matchesFrom_skip _ _ _ _ _ _ Hout).
  destruct c as [| | [|] | s | n]; simpl; try reflexivity.
  - now destruct (strictEq _ VNull).
  - now destruct (truthy _).
  - now destruct (strictEq _ (VBool false)).
  - now destruct (strictEq _ (VString s)).
  - now destruct (strictEq _ (VNumber n)).
Qed.



(** C5.  In slots mode the resolver of a declared slot returns the merge
    by [cn] of: the slot's base classes; then, for each declared axis in
    order, the class string configured for this slot under the resolved
    value of the axis; then the classes each matching compound variant
    gives this slot; then the [className] passed to this resolver.  The
    result is the same under any other configuration that agrees on the
    variants, compound variants, defaults and this slot's base classes:
    no other slot's base classes and no other resolver's argument enter
    it. *)
Theorem slot_result_is_independent_merge (config : Config)
    (declared : Slots) (props : option Props) (slotName : string)
    (baseClasses : string) (slotProps : option Props) :
  slots config = Some (Some declared) ->
  get declared slotName = Some baseClasses ->
  exists f resolver,
    createVariant ClassNames.cn config = Slotted f
    /\ get (f props) slotName = Some resolver
    /\ resolver slotProps
       = ClassNames.cn
           (VString baseClasses
            :: map VString
                 (flat_map
                    (Rules.slotAxisClasses slotName
                       (orDefault (variants config) [])
                       (orDefault props [])
                       (orDefault (defaultVariants config) []))
                    (keys (orDefault (variants config) []))
                  ++ flat_map
                       (Rules.slotCompoundClasses slotName
                          (orDefault props [])
                          (orDefault (defaultVariants config) []))
                       (orDefault (compoundVariants config) []))
            ++ [slotClassName slotProps])
    /\ forall config' declared',
         variants config' = variants config ->
         compoundVariants config' = compoundVariants config ->
         defaultVariants config' = defaultVariants config ->
         slots config' = Some (Some declared') ->
         get declared' slotName = Some baseClasses ->
         exists f' resolver',
           createVariant ClassNames.cn config' = Slotted f'
           /\ get (f' props) slotName = Some resolver'
           /\ resolver' slotProps = resolver slotProps.
Proof.
  intros Hslots Hbase.
  destruct (createVariantSlots_get ClassNames.cn config declared props
              slotName baseClasses Hbase) as [resolver [Hget Hcall]].
  exists (createVariantSlots ClassNames.cn config declared), resolver.
  split; [unfold createVariant; now rewrite Hslots|].
  split; [exact Hget|]. split.
  - rewrite Hcall. unfold resolveSlotsVariantClasses.
    rewrite slotVariantClasses_rule. apply cn_group.
  - intros config' declared' Hv Hc Hd Hslots' Hbase'.
    destruct (createVariantSlots_get ClassNames.cn config' declared' props
                slotName baseClasses Hbase') as [resolver' [Hget' Hcall']].
    exists (createVariantSlots ClassNames.cn config' declared'), resolver'.
    split; [unfold createVariant; now rewrite Hslots'|].
    split; [exact Hget'|].
    rewrite Hcall', Hcall. now rewrite Hv, Hc, Hd.
Qed.

(** Witness of C5: the [panel] slot of the documented [modal]
    configuration, with props [{ size: 'md' }] and
    [{ className: 'custom' }]. *)
Lemma slot_result_is_independent_merge_witness :
  exists f resolver,
    createVariant ClassNames.cn Samples.modal = Slotted f
    /\ get (f (Some [ ("size", VString "md") ])) "panel" = Some resolver
    /\ resolver (Some [ ("className", VString "custom") ])
       = "bg-white rounded max-w-md z-50 shadow-lg custom".
Proof.
  destruct (slot_result_is_independent_merge Samples.modal
              [ ("root", "fixed inset-0"); ("panel", "bg-white rounded") ]
              (Some [ ("size", VString "md") ]) "panel" "bg-white rounded"
              (Some [ ("className", VString "custom") ]) eq_refl eq_refl)
    as [f [resolver [Hf [Hget [Hres _]]]]].
  exists f, resolver. split; [exact Hf|]. split; [exact Hget|].
  rewrite Hres. vm_compute. reflexivity.
Defined.

Lemma prop_omit (k0 : string) (o : Obj value) (k : string) :
  prop (omit k0 o) k = if String.eqb k k0 then VUndefined else prop o k.
Proof.
  unfold prop. rewrite get_omit. now destruct (String.eqb k k0).
Qed.

(** C6.  The resolver is a function of the configuration and of what the
    props object holds: two props objects that read the same under every
    key (the same object passed twice in particular) give the same class
    string in flat mode and, in slots mode, the same class string from
    the resolver of every slot called with the same argument.  This holds
    whatever function [cn] is. *)
Theorem resolver_is_deterministic (cn : list value -> string)
    (config : Config) (props props' : Props) :
  (forall key, prop props key = prop props' key) ->
  match createVariant cn config with
  | Regular f => f (Some props) = f (Some props')
  | Slotted f =>
      forall slotName slotProps,
        option_map (fun resolver => resolver slotProps)
          (get (f (Some props)) slotName)
        = option_map (fun resolver => resolver slotProps)
            (get (f (Some props')) slotName)
  end.
Proof.
  intros Hsame.
  assert (Hall : forall defaults key,
             resolved props defaults key = resolved props' defaults key).
  { intros defaults key. unfold resolved. now rewrite Hsame. }
  assert (Hrest : forall defaults key,
             resolved (omit "className" props) defaults key
             = resolved (omit "className" props') defaults key).
  { intros defaults key. unfold resolved. now rewrite !prop_omit, Hsame. }
  assert (Hflat : createVariantRegular cn config (Some props)
                  = createVariantRegular cn config (Some props')).
  { unfold createVariantRegular, resolveVariantClasses. simpl.
    rewrite Hsame.
    now rewrite (variantClasses_same _ _ _ _ (Hrest _)). }
  unfold createVariant.
  destruct (slots config) as [[declared|]|]; [|exact Hflat|exact Hflat].
  intros slotName slotProps. unfold createVariantSlots.
  destruct (in_dec string_dec slotName (keys declared)) as [Hin|Hout].
  - rewrite !(get_map_keys _ _ _ Hin). simpl. f_equal.
    unfold slotResolver, resolveSlotsVariantClasses.
    now rewrite (slotVariantClasses_same _ _ _ _ (Hall _)).
  - now rewrite !(get_map_keys_none _ _ _ Hout).
Qed.

(** Witness of C6: the same two props written in either order, on the
    documented [button] configuration. *)
Lemma resolver_is_deterministic_witness :
  createVariantRegular ClassNames.cn Samples.button
    (Some [ ("size", VString "lg"); ("variant", VString "secondary") ])
  = createVariantRegular ClassNames.cn Samples.button
      (Some [ ("variant", VString "secondary"); ("size", VString "lg") ]).
Proof.
  apply (resolver_is_deterministic ClassNames.cn Samples.button
           [ ("size", VString "lg"); ("variant", VString "secondary") ]
           [ ("variant", VString "secondary"); ("size", VString "lg") ]).
  intros key. unfold prop. cbn [get].
  destruct (String.eqb_spec "size" key) as [E1|E1];
    destruct (String.eqb_spec "variant" key) as [E2|E2];
    try reflexivity.
  subst key. discriminate.
Defined.

(** C7.  [cn] merges and deduplicates: every space-separated token of
    every input class string is a token of the output, and no token
    occurs twice among the tokens of the output. *)
Theorem cn_merges_and_deduplicates (inputs : list string) :
  (forall input token,
      In input inputs ->
      In token (ClassNames.tokens input) ->
      In token (ClassNames.tokens (ClassNames.cn (map VString inputs))))
  /\ NoDup (ClassNames.tokens (ClassNames.cn (map VString inputs))).
Proof.
  rewrite ClassNamesFacts.tokens_cn. split.
  - intros input token Hin Htok. unfold ClassNames.dedupe.
    apply ClassNamesFacts.uniq_in. split; [|tauto].
    unfold ClassNames.allTokens. apply in_flat_map.
    exists (VString input). split; [now apply in_map | exact Htok].
  - apply ClassNamesFacts.uniq_NoDup.
Qed.

(** Witness of C7: three inputs sharing tokens. *)
Lemma cn_merges_and_deduplicates_witness :
  In "px-4"
    (ClassNames.tokens
       (ClassNames.cn
          (map VString [ "px-4 py-2"; "text-sm  px-4"; "py-2 rounded" ])))
  /\ ClassNames.cn
       (map VString [ "px-4 py-2"; "text-sm  px-4"; "py-2 rounded" ])
     = "px-4 py-2 text-sm rounded".
Proof.
  split.
  - apply (proj1 (cn_merges_and_deduplicates
                    [ "px-4 py-2"; "text-sm  px-4"; "py-2 rounded" ])
             "text-sm  px-4" "px-4").
    + simpl. tauto.
    + vm_compute. tauto.
  - reflexivity.
Defined.



(** C9.  The conditions of a compound variant are tested asymmetrically.
    A condition [true] accepts every truthy resolved value (a non-empty
    string and a non-zero number are truthy, not only [true]).  A
    condition [false] accepts the resolved value [false] only ([undefined]
    and [null] are falsy and still rejected).  A string or number
    condition accepts the resolved value strictly equal to it. *)
Theorem compound_condition_asymmetry (props : Props)
    (defaults : DefaultVariants) (axis : string) (rest : CompoundVariant) :
  axis <> "class" -> ~ In axis (keys rest) ->
  let v := resolved props defaults axis in
  let others := matchesCompoundVariant props rest defaults in
  let matches c :=
    matchesCompoundVariant props ((axis, Prim c) :: rest) defaults in
  matches (VBool true) = truthy v && others
  /\ (matches (VBool false) = true <-> v = VBool false /\ others = true)
  /\ (forall s, matches (VString s) = true <-> v = VString s /\ others = true)
  /\ (forall n, matches (VNumber n) = true <-> v = VNumber n /\ others = true)
  /\ (forall s, s <> "" -> truthy (VString s) = true)
  /\ (forall n, n <> 0%Z -> truthy (VNumber n) = true)
  /\ truthy VUndefined = false
  /\ truthy VNull = false.
Proof.
  intros Hne Hout v others matches.
  assert (Hcons : forall c,
             matches c = Rules.conditionHolds (Prim c) v && others).
  { intros c. now apply matchesCompoundVariant_cons. }
  split; [apply Hcons|].
  split; [rewrite Hcons, andb_true_iff; simpl; now rewrite strictEq_eq|].
  split; [intros s; rewrite Hcons, andb_true_iff; simpl;
          now rewrite strictEq_eq|].
  split; [intros n; rewrite Hcons, andb_true_iff; simpl;
          now rewrite strictEq_eq|].
  split; [intros s Hs; simpl; now apply nonEmpty_true|].
  split; [intros n Hn; simpl; apply negb_true_iff; now apply Z.eqb_neq|].
  split; reflexivity.
Qed.

(** Witness of C9: the condition [disabled: true] accepts the string
    ['yes'], and the condition [disabled: false] rejects a missing
    [disabled]. *)
Lemma compound_condition_asymmetry_witness :
  matchesCompoundVariant [ ("disabled", VString "yes") ]
    [ ("disabled", Prim (VBool true)); ("class", Prim (VString "ring")) ] []
  = true
  /\ matchesCompoundVariant []
       [ ("disabled", Prim (VBool false)); ("class", Prim (VString "ring")) ]
       []
     = false.
Proof.
  assert (Hne : "disabled" <> "class") by discriminate.
  assert (Hout : ~ In "disabled"
                     (keys [ ("class", Prim (VString "ring")) ])).
  { simpl. intros [H|[]]. discriminate H. }
  split.
  - rewrite (proj1 (compound_condition_asymmetry
                      [ ("disabled", VString "yes") ] [] "disabled"
                      [ ("class", Prim (VString "ring")) ] Hne Hout)).
    reflexivity.
  - destruct (matchesCompoundVariant []
                [ ("disabled", Prim (VBool false));
                  ("class", Prim (VString "ring")) ] []) eqn:E;
      [|reflexivity].
    apply (proj1 (proj2 (compound_condition_asymmetry
                           [] [] "disabled"
                           [ ("class", Prim (VString "ring")) ] Hne Hout)))
      in E.
    destruct E as [E _]. discriminate E.
Defined.



(** * Further properties of the resolver *)

(** ** Only the keys the loops visit are read *)

Section VisitedKeys.

Variables (props props' : Props) (defaults defaults' : DefaultVariants).

Lemma fold_left_same_on {X : Type} (f g : list string -> X -> list string)
    (xs : list X) :
  (forall x, In x xs -> forall classes, f classes x = g classes x) ->
  forall classes, fold_left f xs classes = fold_left g xs classes.
Proof.
  induction xs as [| x xs IH]; simpl; intros Hfg classes; [reflexivity|].
  rewrite (Hfg x (or_introl eq_refl)). apply IH.
  intros y Hy. apply Hfg. now right.
Qed.

Lemma matchesFrom_same_on (compound : CompoundVariant) (ks : list string) :
  (forall k, In k ks -> k <> "class" ->
     resolved props defaults k = resolved props' defaults' k) ->
  matchesFrom props compound defaults ks
  = matchesFrom props' compound defaults' ks.
Proof.
  induction ks as [| k ks IH]; simpl; intros Hsame; [reflexivity|].
  assert (Hrest : matchesFrom props compound defaults ks
                  = matchesFrom props' compound defaults' ks).
  { apply IH. intros k' Hin. apply Hsame. now right. }
  destruct (String.eqb_spec k "class") as [E|E]; [exact Hrest|].
  rewrite (Hsame k (or_introl eq_refl) E), Hrest. reflexivity.
Qed.

Lemma variantStep_same_at (variants : Variants) (k : string)
    (classes : list string) :
  resolved props defaults k = resolved props' defaults' k ->
  variantStep props variants defaults classes k
  = variantStep props' variants defaults' classes k.
Proof. intros H. unfold variantStep. now rewrite H. Qed.

Lemma slotVariantStep_same_at (slotName : string) (variants : Variants)
    (k : string) (classes : list string) :
  resolved props defaults k = resolved props' defaults' k ->
  slotVariantStep slotName props variants defaults classes k
  = slotVariantStep slotName props' variants defaults' classes k.
Proof. intros H. unfold slotVariantStep. now rewrite H. Qed.

Lemma variantClasses_same_on (variants : Variants)
    (compounds : list CompoundVariant) :
  (forall k, In k (keys variants) ->
     forall classes,
       variantStep props variants defaults classes k
       = variantStep props' variants defaults' classes k) ->
  (forall c, In c compounds ->
     matchesCompoundVariant props c defaults
     = matchesCompoundVariant props' c defaults') ->
  variantClasses props variants compounds defaults
  = variantClasses props' variants compounds defaults'.
Proof.
  intros Haxes Hcompounds. unfold variantClasses.
  rewrite (fold_left_same_on _ _ _ Haxes).
  apply fold_left_same_on. intros c Hc classes. unfold compoundStep.
  now rewrite (Hcompounds c Hc).
Qed.

Lemma slotVariantClasses_same_on (slotName : string) (variants : Variants)
    (compounds : list CompoundVariant) :
  (forall k, In k (keys variants) ->
     forall classes,
       slotVariantStep slotName props variants defaults classes k
       = slotVariantStep slotName props' variants defaults' classes k) ->
  (forall c, In c compounds ->
     matchesCompoundVariant props c defaults
     = matchesCompoundVariant props' c defaults') ->
  slotVariantClasses slotName props (Some variants) compounds defaults
  = slotVariantClasses slotName props' (Some variants) compounds defaults'.
Proof.
  intros Haxes Hcompounds. unfold slotVariantClasses.
  rewrite (fold_left_same_on _ _ _ Haxes).
  apply fold_left_same_on. intros c Hc classes. unfold slotCompoundStep.
  now rewrite (Hcompounds c Hc).
Qed.

End VisitedKeys.

Lemma resolved_cons_other (props : Props) (defaults : DefaultVariants)
    (key : string) (v : value) (k : string) :
  key <> k -> resolved ((key, v) :: props) defaults k = resolved props defaults k.
Proof.
  intros Hne. unfold resolved. rewrite prop_cons.
  now destruct (String.eqb_spec key k).
Qed.

Lemma omit_cons_other {A : Type} (k0 key : string) (v : A) (o : Obj A) :
  key <> k0 -> omit k0 ((key, v) :: o) = (key, v) :: omit k0 o.
Proof.
  intros Hne. unfold omit. simpl.
  now destruct (String.eqb_spec key k0).
Qed.

(** A prop no axis and no compound variant is keyed by changes neither
    class list. *)
Lemma unread_prop (props : Props) (defaults : DefaultVariants)
    (variants : Variants) (compounds : list CompoundVariant)
    (key : string) (v : value) :
  ~ In key (keys variants) ->
  (forall c, In c compounds -> ~ In key (keys c)) ->
  variantClasses ((key, v) :: props) variants compounds defaults
  = variantClasses props variants compounds defaults
  /\ forall slotName,
       slotVariantClasses slotName ((key, v) :: props) (Some variants)
         compounds defaults
       = slotVariantClasses slotName props (Some variants) compounds defaults.
Proof.
  intros Haxis Hcompound.
  assert (Hres : forall k, In k (keys variants) ->
             resolved ((key, v) :: props) defaults k
             = resolved props defaults k).
  { intros k Hk. apply resolved_cons_other. intros E. now subst k. }
  assert (Hmatch : forall c, In c compounds ->
             matchesCompoundVariant ((key, v) :: props) c defaults
             = matchesCompoundVariant props c defaults).
  { intros c Hc. apply matchesFrom_same_on. intros k Hk _.
    apply resolved_cons_other. intros E. subst k.
    now apply (Hcompound c Hc). }
  split.
  - apply variantClasses_same_on; [|exact Hmatch].
    intros k Hk classes. now apply variantStep_same_at, Hres.
  - intros slotName. apply slotVariantClasses_same_on; [|exact Hmatch].
    intros k Hk classes. now apply slotVariantStep_same_at, Hres.
Qed.

(** X1.  A prop that is not [className], that no declared axis is named
    after and that no compound variant lists changes nothing: the variant
    function returns the same class string with and without it, in flat
    mode and from every slot resolver in slots mode, whatever function
    [cn] is. *)
Theorem unknown_prop_is_ignored (cn : list value -> string)
    (config : Config) (props : Props) (key : string) (v : value) :
  key <> "className" ->
  ~ In key (keys (orDefault (variants config) [])) ->
  (forall c, In c (orDefault (compoundVariants config) []) ->
     ~ In key (keys c)) ->
  match createVariant cn config with
  | Regular f => f (Some ((key, v) :: props)) = f (Some props)
  | Slotted f =>
      forall slotName slotProps,
        option_map (fun resolver => resolver slotProps)
          (get (f (Some ((key, v) :: props))) slotName)
        = option_map (fun resolver => resolver slotProps)
            (get (f (Some props)) slotName)
  end.
Proof.
  intros Hcls Haxis Hcompound.
  assert (Hflat : createVariantRegular cn config (Some ((key, v) :: props))
                  = createVariantRegular cn config (Some props)).
  { unfold createVariantRegular, resolveVariantClasses. simpl orDefault.
    rewrite (omit_cons_other _ _ _ _ Hcls), prop_cons.
    destruct (String.eqb_spec key "className") as [E|_]; [contradiction|].
    now rewrite (proj1 (unread_prop _ _ _ _ key v Haxis Hcompound)). }
  unfold createVariant.
  destruct (slots config) as [[declared|]|]; [|exact Hflat|exact Hflat].
  intros slotName slotProps. unfold createVariantSlots.
  destruct (in_dec string_dec slotName (keys declared)) as [Hin|Hout].
  - rewrite !(get_map_keys _ _ _ Hin). simpl. f_equal.
    unfold slotResolver, resolveSlotsVariantClasses.
    now rewrite (proj2 (unread_prop _ _ _ _ key v Haxis Hcompound)).
  - now rewrite !(get_map_keys_none _ _ _ Hout).
Qed.

(** Witness of X1: a [data-test] prop on the documented [button]
    configuration. *)
Lemma unknown_prop_is_ignored_witness :
  createVariantRegular ClassNames.cn Samples.button
    (Some [ ("data-test", VString "x"); ("size", VString "lg") ])
  = createVariantRegular ClassNames.cn Samples.button
      (Some [ ("size", VString "lg") ]).
Proof.
  apply (unknown_prop_is_ignored ClassNames.cn Samples.button
           [ ("size", VString "lg") ] "data-test" (VString "x")).
  - discriminate.
  - simpl. intros [H|[H|[H|[]]]]; discriminate H.
  - simpl. intros c [<-|[<-|[]]]; simpl;
      intros [H|[H|[H|[]]]]; discriminate H.
Defined.

(** X2.  In slots mode a [className] passed in the props of the variant
    function reaches no slot: when no axis is named [className] and no
    compound variant lists it, every slot resolver returns what it returns
    without it.  (Flat mode appends that [className] to the result.) *)
Theorem slots_mode_drops_props_className (cn : list value -> string)
    (config : Config) (declared : Slots) (props : Props) (c : value) :
  slots config = Some (Some declared) ->
  ~ In "className" (keys (orDefault (variants config) [])) ->
  (forall compound, In compound (orDefault (compoundVariants config) []) ->
     ~ In "className" (keys compound)) ->
  exists f,
    createVariant cn config = Slotted f
    /\ forall slotName slotProps,
         option_map (fun resolver => resolver slotProps)
           (get (f (Some (("className", c) :: props))) slotName)
         = option_map (fun resolver => resolver slotProps)
             (get (f (Some props)) slotName).
Proof.
  intros Hslots Haxis Hcompound.
  exists (createVariantSlots cn config declared). split.
  - unfold createVariant. now rewrite Hslots.
  - intros slotName slotProps. unfold createVariantSlots.
    destruct (in_dec string_dec slotName (keys declared)) as [Hin|Hout].
    + rewrite !(get_map_keys _ _ _ Hin). simpl. f_equal.
      unfold slotResolver, resolveSlotsVariantClasses.
      now rewrite (proj2 (unread_prop _ _ _ _ "className" c Haxis Hcompound)).
    + now rewrite !(get_map_keys_none _ _ _ Hout).
Qed.

(** Witness of X2: the [panel] slot of the documented [modal]
    configuration, called with and without [className: 'mt-4'] in the
    props. *)
Lemma slots_mode_drops_props_className_witness :
  Samples.callSlot Samples.docModal
    (Some [ ("className", VString "mt-4"); ("size", VString "md") ])
    "panel" None
  = Samples.callSlot Samples.docModal (Some [ ("size", VString "md") ])
      "panel" None
  /\ Samples.callSlot Samples.docModal
       (Some [ ("className", VString "mt-4"); ("size", VString "md") ])
       "panel" None
     = Some "bg-white rounded max-w-md".
Proof.
  destruct (slots_mode_drops_props_className ClassNames.cn Samples.docModal
              [ ("root", "fixed inset-0"); ("panel", "bg-white rounded") ]
              [ ("size", VString "md") ] (VString "mt-4") eq_refl)
    as [f [Hf Hsame]].
  - simpl. intros [H|[]]. discriminate H.
  - simpl. intros compound [].
  - split; [|reflexivity].
    unfold Samples.callSlot. rewrite Hf. apply Hsame.
Defined.

(** ** What an axis iteration pushes *)

Lemma variantStep_closed (props : Props) (variants : Variants)
    (defaults : DefaultVariants) (classes : list string) (axis : string) :
  variantStep props variants defaults classes axis
  = classes
    ++ filter nonEmpty (Rules.axisClasses variants props defaults axis).
Proof.
  rewrite (variantStep_pushes props defaults variants classes axis).
  now rewrite variantStep_rule.
Qed.

Lemma slotVariantStep_closed (slotName : string) (props : Props)
    (variants : Variants) (defaults : DefaultVariants)
    (classes : list string) (axis : string) :
  slotVariantStep slotName props variants defaults classes axis
  = classes
    ++ filter nonEmpty
         (Rules.slotAxisClasses slotName variants props defaults axis).
Proof.
  rewrite (slotVariantStep_pushes props defaults slotName variants classes
             axis).
  now rewrite slotVariantStep_rule.
Qed.

Lemma configured_by_String (variants : Variants) (props props' : Props)
    (defaults defaults' : DefaultVariants) (axis : string) :
  nullish (resolved props defaults axis)
  = nullish (resolved props' defaults' axis) ->
  toString (resolved props defaults axis)
  = toString (resolved props' defaults' axis) ->
  Rules.configured variants props defaults axis
  = Rules.configured variants props' defaults' axis.
Proof.
  intros Hn Hs. unfold Rules.configured. cbv zeta. now rewrite Hn, Hs.
Qed.

Lemma resolved_cons_same (props : Props) (defaults : DefaultVariants)
    (axis : string) (v : value) :
  nullish v = false -> resolved ((axis, v) :: props) defaults axis = v.
Proof.
  intros Hv. unfold resolved, coalesce. rewrite prop_cons, String.eqb_refl.
  now rewrite Hv.
Qed.

(** X3.  The axis loops read a prop through [String(value)] only: when no
    compound variant lists the axis, two values that are neither
    [undefined] nor [null] and have the same string rendering (the number
    [2] and ['2'], [true] and ['true']) select the same classes, in flat
    and in slots mode. *)
Theorem axis_selection_reads_the_string_rendering (props : Props)
    (defaults : DefaultVariants) (variants : Variants)
    (compounds : list CompoundVariant) (axis : string) (v v' : value) :
  nullish v = false -> nullish v' = false ->
  toString v = toString v' ->
  (forall c, In c compounds -> ~ In axis (keys c)) ->
  variantClasses ((axis, v) :: props) variants compounds defaults
  = variantClasses ((axis, v') :: props) variants compounds defaults
  /\ forall slotName,
       slotVariantClasses slotName ((axis, v) :: props) (Some variants)
         compounds defaults
       = slotVariantClasses slotName ((axis, v') :: props) (Some variants)
           compounds defaults.
Proof.
  intros Hv Hv' Hs Hcompound.
  assert (Hconf : forall k,
             Rules.configured variants ((axis, v) :: props) defaults k
             = Rules.configured variants ((axis, v') :: props) defaults k).
  { intros k. destruct (String.eqb_spec axis k) as [E|E].
    - subst k. apply configured_by_String;
        rewrite !resolved_cons_same by assumption; congruence.
    - apply configured_by_String;
        now rewrite !(resolved_cons_other _ _ _ _ _ E). }
  assert (Hmatch : forall c, In c compounds ->
             matchesCompoundVariant ((axis, v) :: props) c defaults
             = matchesCompoundVariant ((axis, v') :: props) c defaults).
  { intros c Hc. apply matchesFrom_same_on. intros k Hk _.
    assert (E : axis <> k).
    { intros E. subst k. now apply (Hcompound c Hc). }
    now rewrite !(resolved_cons_other _ _ _ _ _ E). }
  split.
  - apply variantClasses_same_on; [|exact Hmatch].
    intros k _ classes. rewrite !variantStep_closed.
    unfold Rules.axisClasses. now rewrite Hconf.
  - intros slotName. apply slotVariantClasses_same_on; [|exact Hmatch].
    intros k _ classes. rewrite !slotVariantStep_closed.
    unfold Rules.slotAxisClasses. now rewrite Hconf.
Qed.

(** Witness of X3: a [cols] axis keyed by numbers, called with the
    number [2] and with the string ['2']. *)
Lemma axis_selection_reads_the_string_rendering_witness :
  variantClasses [ ("cols", VNumber 2) ]
    [ ("cols",
       [ ("1", ClassString "grid-cols-1"); ("2", ClassString "grid-cols-2") ]) ]
    [] []
  = variantClasses [ ("cols", VString "2") ]
      [ ("cols",
         [ ("1", ClassString "grid-cols-1");
           ("2", ClassString "grid-cols-2") ]) ]
      [] []
  /\ variantClasses [ ("cols", VNumber 2) ]
       [ ("cols",
          [ ("1", ClassString "grid-cols-1");
            ("2", ClassString "grid-cols-2") ]) ]
       [] []
     = [ "grid-cols-2" ].
Proof.
  split; [|reflexivity].
  apply (proj1 (axis_selection_reads_the_string_rendering [] []
                  [ ("cols",
                     [ ("1", ClassString "grid-cols-1");
                       ("2", ClassString "grid-cols-2") ]) ]
                  [] "cols" (VNumber 2) (VString "2")
                  eq_refl eq_refl eq_refl
                  (fun c (H : In c []) => match H with end))).
Defined.

Lemma matchesFrom_class_first (props : Props) (defaults : DefaultVariants)
    (field : CompoundField) (rest : CompoundVariant) (ks : list string) :
  matchesFrom props (("class", field) :: rest) defaults ks
  = matchesFrom props rest defaults ks.
Proof.
  induction ks as [| k ks IH]; [reflexivity|].
  cbn [matchesFrom get]. rewrite IH.
  destruct (String.eqb_spec k "class") as [E|E]; [reflexivity|].
  destruct (String.eqb_spec "class" k) as [E'|E']; [now subst k|].
  reflexivity.
Qed.

(** X4.  The [class] field of a compound variant is never tested as a
    condition, so a compound variant that lists no axis fires for every
    props object: its non-empty class string is pushed in flat mode and
    for every slot in slots mode. *)
Theorem unconditional_compound_always_fires (props : Props)
    (defaults : DefaultVariants) (field : CompoundField)
    (rest : CompoundVariant) (s : string) (classes : list string)
    (slotName : string) :
  matchesCompoundVariant props (("class", field) :: rest) defaults
  = matchesCompoundVariant props rest defaults
  /\ compoundStep props defaults classes [ ("class", Prim (VString s)) ]
     = (if nonEmpty s then classes ++ [s] else classes)
  /\ slotCompoundStep slotName props defaults classes
       [ ("class", Prim (VString s)) ]
     = (if nonEmpty s then classes ++ [s] else classes).
Proof.
  split; [|split; reflexivity].
  unfold matchesCompoundVariant. simpl. apply matchesFrom_class_first.
Qed.

(** X5.  Compound variants only append: the class list of a configuration
    with the compound variants [cs1 ++ cs2] is the class list with [cs1]
    followed by what [cs2] gives with no axis declared.  With [cs1] empty:
    the axis classes come first and do not depend on the compound
    variants, and the compound classes do not depend on the axes. *)
Theorem compound_variants_only_append (props : Props)
    (defaults : DefaultVariants) (variants : Variants)
    (cs1 cs2 : list CompoundVariant) (slotName : string)
    (slotsVariants : option Variants) :
  variantClasses props variants (cs1 ++ cs2) defaults
  = variantClasses props variants cs1 defaults
    ++ variantClasses props [] cs2 defaults
  /\ slotVariantClasses slotName props slotsVariants (cs1 ++ cs2) defaults
     = slotVariantClasses slotName props slotsVariants cs1 defaults
       ++ slotVariantClasses slotName props None cs2 defaults.
Proof.
  unfold variantClasses, slotVariantClasses. simpl.
  rewrite !fold_left_app. split.
  - rewrite (fold_left_pushes _ cs2 (compoundStep_pushes props defaults)).
    now rewrite (fold_left_pushes _ cs2 (compoundStep_pushes props defaults)
                   []).
  - rewrite (fold_left_pushes _ cs2
               (slotCompoundStep_pushes props defaults slotName)).
    now rewrite (fold_left_pushes _ cs2
                   (slotCompoundStep_pushes props defaults slotName) []).
Qed.

Lemma get_In {A : Type} (o : Obj A) (k : string) (v : A) :
  get o k = Some v -> In (k, v) o.
Proof.
  induction o as [| [k' v'] o IH]; simpl; [discriminate|].
  destruct (String.eqb_spec k' k) as [E|E].
  - intros [= <-]. left. now subst k'.
  - intros H. right. now apply IH.
Qed.

Lemma noValueIs_get (shape : VariantValue -> bool) (variants : Variants)
    (axis : string) (def : VariantDefinition) (k : string)
    (val : VariantValue) :
  noValueIs shape variants = true ->
  get variants axis = Some def -> get def k = Some val ->
  shape val = false.
Proof.
  intros Hall Hdef Hval. unfold noValueIs in Hall.
  rewrite forallb_forall in Hall.
  specialize (Hall _ (get_In _ _ _ Hdef)). simpl in Hall.
  rewrite forallb_forall in Hall.
  specialize (Hall _ (get_In _ _ _ Hval)). simpl in Hall.
  now apply negb_true_iff in Hall.
Qed.

Lemma fold_left_unchanged {X : Type} (f : list string -> X -> list string)
    (xs : list X) :
  (forall classes x, f classes x = classes) ->
  forall classes, fold_left f xs classes = classes.
Proof.
  intros Hf. induction xs as [| x xs IH]; simpl; intros classes.
  - reflexivity.
  - now rewrite Hf, IH.
Qed.

(** X6.  The two modes do not read each other's variant shapes.  The flat
    resolver pushes nothing for axes whose values are all per-slot records
    (or numbers): its class list is that of the compound variants alone.
    The slot resolver pushes nothing for axes whose values are all plain
    class strings (or numbers). *)
Theorem modes_skip_the_other_shape (props : Props)
    (defaults : DefaultVariants) (variants : Variants)
    (compounds : list CompoundVariant) (slotName : string) :
  (noValueIs isClassString variants = true ->
   variantClasses props variants compounds defaults
   = variantClasses props [] compounds defaults)
  /\ (noValueIs isSlotClasses variants = true ->
      slotVariantClasses slotName props (Some variants) compounds defaults
      = slotVariantClasses slotName props None compounds defaults).
Proof.
  split; intros Hall.
  - unfold variantClasses. f_equal. simpl.
    apply fold_left_unchanged. intros classes axis.
    rewrite variantStep_closed.
    unfold Rules.axisClasses, Rules.configured. cbv zeta.
    destruct (nullish _); [apply app_nil_r|].
    destruct (get variants axis) as [def|] eqn:Hdef; [|apply app_nil_r].
    destruct (get def _) as [[s|r|n]|] eqn:Hval; try apply app_nil_r.
    pose proof (noValueIs_get _ _ _ _ _ _ Hall Hdef Hval) as Hno.
    discriminate Hno.
  - unfold slotVariantClasses. f_equal.
    apply fold_left_unchanged. intros classes axis.
    rewrite slotVariantStep_closed.
    unfold Rules.slotAxisClasses, Rules.configured. cbv zeta.
    destruct (nullish _); [apply app_nil_r|].
    destruct (get variants axis) as [def|] eqn:Hdef; [|apply app_nil_r].
    destruct (get def _) as [[s|r|n]|] eqn:Hval; try apply app_nil_r.
    pose proof (noValueIs_get _ _ _ _ _ _ Hall Hdef Hval) as Hno.
    discriminate Hno.
Qed.

(** Witness of X6: the slot-shaped variants of [fileInput] handed to the
    flat resolver, and the flat variants of the documented [button] handed
    to the slot resolver. *)
Lemma modes_skip_the_other_shape_witness :
  variantClasses (FileInput.propsOf "text" "lg" true true true)
    FileInput.slotVariants [] FileInput.defaults
  = []
  /\ slotVariantClasses "root" [ ("size", VString "lg") ]
       (Some [ ("size",
                [ ("sm", ClassString "text-sm");
                  ("md", ClassString "text-base");
                  ("lg", ClassString "text-lg") ]) ])
       [] []
     = [].
Proof.
  split.
  - exact (proj1 (modes_skip_the_other_shape
                    (FileInput.propsOf "text" "lg" true true true)
                    FileInput.defaults FileInput.slotVariants [] "root")
             eq_refl).
  - exact (proj2 (modes_skip_the_other_shape
                    [ ("size", VString "lg") ] []
                    [ ("size",
                       [ ("sm", ClassString "text-sm");
                         ("md", ClassString "text-base");
                         ("lg", ClassString "text-lg") ]) ]
                    [] "root")
             eq_refl).
Defined.

Lemma resolved_no_props (defaults : DefaultVariants) (key : string) :
  resolved [] defaults key = prop defaults key.
Proof. reflexivity. Qed.

Lemma resolved_defaults_as_props (defaults : DefaultVariants)
    (key : string) :
  resolved defaults defaults key = prop defaults key.
Proof. unfold resolved. apply coalesce_same. Qed.

Lemma resolved_defaults_as_rest (defaults : DefaultVariants)
    (key : string) :
  resolved (omit "className" defaults) defaults key = prop defaults key.
Proof.
  unfold resolved. rewrite prop_omit.
  destruct (String.eqb key "className"); [reflexivity|].
  apply coalesce_same.
Qed.

(** X7.  Calling the variant function with no props gives what passing
    [defaultVariants] as the props gives: in slots mode from every slot
    resolver, in flat mode when the defaults hold no [className] (which
    flat mode would append).  This holds whatever function [cn] is. *)
Theorem no_props_is_the_defaults (cn : list value -> string)
    (config : Config) :
  match createVariant cn config with
  | Regular f =>
      prop (orDefault (defaultVariants config) []) "className" = VUndefined ->
      f None = f (Some (orDefault (defaultVariants config) []))
  | Slotted f =>
      forall slotName slotProps,
        option_map (fun resolver => resolver slotProps)
          (get (f None) slotName)
        = option_map (fun resolver => resolver slotProps)
            (get (f (Some (orDefault (defaultVariants config) []))) slotName)
  end.
Proof.
  assert (Hflat :
    prop (orDefault (defaultVariants config) []) "className" = VUndefined ->
    createVariantRegular cn config None
    = createVariantRegular cn config
        (Some (orDefault (defaultVariants config) []))).
  { intros Hcls. unfold createVariantRegular, resolveVariantClasses.
    cbv zeta. cbn [orDefault]. rewrite Hcls.
    change (omit "className" []) with (@nil (string * value)).
    change (prop [] "className") with VUndefined.
    rewrite (variantClasses_same []
               (omit "className" (orDefault (defaultVariants config) []))
               (orDefault (defaultVariants config) [])
               (orDefault (defaultVariants config) [])); [reflexivity|].
    intros key. now rewrite resolved_no_props, resolved_defaults_as_rest. }
  unfold createVariant.
  destruct (slots config) as [[declared|]|]; [|exact Hflat|exact Hflat].
  intros slotName slotProps. unfold createVariantSlots.
  destruct (in_dec string_dec slotName (keys declared)) as [Hin|Hout].
  - rewrite !(get_map_keys _ _ _ Hin). simpl. f_equal.
    unfold slotResolver, resolveSlotsVariantClasses.
    rewrite (slotVariantClasses_same []
               (orDefault (defaultVariants config) [])
               (orDefault (defaultVariants config) [])
               (orDefault (defaultVariants config) [])); [reflexivity|].
    intros key. now rewrite resolved_no_props, resolved_defaults_as_props.
  - now rewrite !(get_map_keys_none _ _ _ Hout).
Qed.

(** Witness of X7: the documented [button] configuration, whose defaults
    are [variant: 'primary'] and [size: 'md']. *)
Lemma no_props_is_the_defaults_witness :
  createVariantRegular ClassNames.cn Samples.button None
  = createVariantRegular ClassNames.cn Samples.button
      (Some [ ("variant", VString "primary"); ("size", VString "md") ])
  /\ createVariantRegular ClassNames.cn Samples.button None
     = "px-4 py-2 rounded bg-blue-500 text-white text-base".
Proof.
  split; [|reflexivity].
  exact (no_props_is_the_defaults ClassNames.cn Samples.button eq_refl).
Defined.

(** X8.  A default replaces a missing prop, not an unknown one: when the
    prop holds a value that is neither [undefined] nor [null] and whose
    string rendering is not a key of the axis definition, the iteration
    for the axis pushes nothing, whatever [defaultVariants] declares for
    the axis. *)
Theorem unknown_value_does_not_fall_back (props : Props)
    (defaults : DefaultVariants) (variants : Variants) (axis : string)
    (def : VariantDefinition) (classes : list string) (slotName : string) :
  nullish (prop props axis) = false ->
  get variants axis = Some def ->
  get def (toString (prop props axis)) = None ->
  variantStep props variants defaults classes axis = classes
  /\ slotVariantStep slotName props variants defaults classes axis = classes.
Proof.
  intros Hv Hdef Hnone.
  assert (Hres : resolved props defaults axis = prop props axis).
  { unfold resolved, coalesce. now rewrite Hv. }
  rewrite variantStep_closed, slotVariantStep_closed.
  unfold Rules.axisClasses, Rules.slotAxisClasses, Rules.configured.
  cbv zeta. rewrite Hres, Hv, Hdef, Hnone. simpl.
  now rewrite app_nil_r.
Qed.

(** Witness of X8: [size: 'xl'] on the [size] axis of the documented
    [button] configuration, whose default is ['md']. *)
Lemma unknown_value_does_not_fall_back_witness :
  variantStep [ ("size", VString "xl") ]
    [ ("size",
       [ ("sm", ClassString "text-sm"); ("md", ClassString "text-base");
         ("lg", ClassString "text-lg") ]) ]
    [ ("size", VString "md") ] [ "px-4" ] "size"
  = [ "px-4" ].
Proof.
  exact (proj1 (unknown_value_does_not_fall_back
                  [ ("size", VString "xl") ] [ ("size", VString "md") ]
                  [ ("size",
                     [ ("sm", ClassString "text-sm");
                       ("md", ClassString "text-base");
                       ("lg", ClassString "text-lg") ]) ]
                  "size" _ [ "px-4" ] "root" eq_refl eq_refl eq_refl)).
Defined.

(** X9.  The resolver invents no class.  Every string on the class list
    of flat mode is non-empty and is either a class string some declared
    axis holds under some key or the [class] string of one of the compound
    variants; every string on the class list of a slot is non-empty and is
    either the entry of that slot in a per-slot record of some axis, the
    [class] string of a compound variant, or the entry of that slot in the
    [class] record of a compound variant. *)
Theorem resolver_invents_no_class (props : Props)
    (defaults : DefaultVariants) (variants : Variants)
    (compounds : list CompoundVariant) (slotName : string) (c : string) :
  (In c (variantClasses props variants compounds defaults) ->
   c <> ""
   /\ ((exists axis def k,
          In axis (keys variants) /\ get variants axis = Some def
          /\ get def k = Some (ClassString c))
       \/ (exists compound,
             In compound compounds
             /\ get compound "class" = Some (Prim (VString c)))))
  /\ (In c (slotVariantClasses slotName props (Some variants) compounds
              defaults) ->
      c <> ""
      /\ ((exists axis def k r,
             In axis (keys variants) /\ get variants axis = Some def
             /\ get def k = Some (SlotClasses r) /\ get r slotName = Some c)
          \/ (exists compound,
                In compound compounds
                /\ (get compound "class" = Some (Prim (VString c))
                    \/ exists r,
                         get compound "class" = Some (Rec r)
                         /\ get r slotName = Some c)))).
Proof.
  split.
  - rewrite variantClasses_rule. intros Hin.
    apply filter_In in Hin as [Hin Hne]. apply nonEmpty_true in Hne.
    split; [exact Hne|].
    apply in_app_or in Hin as [Hin|Hin]; apply in_flat_map in Hin.
    + destruct Hin as [axis [Haxis Hc]]. left.
      unfold Rules.axisClasses, Rules.configured in Hc. cbv zeta in Hc.
      destruct (nullish _); [contradiction|].
      destruct (get variants axis) as [def|] eqn:Hdef; [|contradiction].
      destruct (get def _) as [[s|r|n]|] eqn:Hval; try contradiction.
      destruct Hc as [<-|[]].
      exists axis, def, (toString (resolved props defaults axis)).
      now repeat split.
    + destruct Hin as [compound [Hcompound Hc]]. right.
      unfold Rules.compoundClasses in Hc.
      destruct (matchesCompoundVariant _ _ _); [|contradiction].
      destruct (get compound "class") as [[[| | |s|]|r]|] eqn:Hcls;
        try contradiction.
      destruct Hc as [<-|[]]. now exists compound.
  - rewrite slotVariantClasses_rule. intros Hin.
    apply filter_In in Hin as [Hin Hne]. apply nonEmpty_true in Hne.
    split; [exact Hne|].
    apply in_app_or in Hin as [Hin|Hin]; apply in_flat_map in Hin.
    + destruct Hin as [axis [Haxis Hc]]. left.
      unfold Rules.slotAxisClasses, Rules.configured in Hc. cbv zeta in Hc.
      destruct (nullish _); [contradiction|].
      destruct (get variants axis) as [def|] eqn:Hdef; [|contradiction].
      destruct (get def _) as [[s|r|n]|] eqn:Hval; try contradiction.
      destruct (get r slotName) as [x|] eqn:Hslot; [|contradiction].
      destruct Hc as [<-|[]].
      exists axis, def, (toString (resolved props defaults axis)), r.
      now repeat split.
    + destruct Hin as [compound [Hcompound Hc]]. right.
      unfold Rules.slotCompoundClasses in Hc.
      destruct (matchesCompoundVariant _ _ _); [|contradiction].
      destruct (get compound "class") as [[[| | |s|]|r]|] eqn:Hcls;
        try contradiction.
      * destruct Hc as [<-|[]]. exists compound. split; [assumption|].
        now left.
      * destruct (get r slotName) as [x|] eqn:Hslot; [|contradiction].
        destruct Hc as [<-|[]]. exists compound. split; [assumption|].
        right. now exists r.
Qed.

(** Witness of X9: ['shadow-lg'] on the class list of the documented
    [button] configuration under [{ size: 'lg' }] comes from its first
    compound variant or from an axis. *)
Lemma resolver_invents_no_class_witness :
  "shadow-lg" <> ""
  /\ ((exists axis def k,
         In axis
           (keys (orDefault (variants Samples.button) []))
         /\ get (orDefault (variants Samples.button) []) axis = Some def
         /\ get def k = Some (ClassString "shadow-lg"))
      \/ (exists compound,
            In compound (orDefault (compoundVariants Samples.button) [])
            /\ get compound "class" = Some (Prim (VString "shadow-lg")))).
Proof.
  apply (proj1 (resolver_invents_no_class
                  [ ("size", VString "lg") ]
                  (orDefault (defaultVariants Samples.button) [])
                  (orDefault (variants Samples.button) [])
                  (orDefault (compoundVariants Samples.button) [])
                  "root" "shadow-lg")).
  vm_compute. tauto.
Defined.

(** * The [FileInput] component *)

Module ComponentFacts.

Import Component.

(** The resolver the component finds under a slot name. *)
Lemma fileInputFn_get (cn : list value -> string) (props : Props)
    (slotName : string) :
  In slotName (keys FileInput.slotBases) ->
  get (fileInputFn cn (Some props)) slotName
  = Some (slotResolver cn FileInput.slotBases FileInput.slotVariants []
            FileInput.defaults props slotName).
Proof.
  intros Hin. unfold fileInputFn. cbn [createVariant FileInput.fileInput slots].
  unfold createVariantSlots.
  now rewrite (get_map_keys _ _ _ Hin).
Qed.

Lemma containerClass_resolver (cn : list value -> string)
    (p : FileInputProps) :
  containerClass (FileInput cn p)
  = Some (slotResolver cn FileInput.slotBases FileInput.slotVariants []
            FileInput.defaults (variantProps p) "container"
            (Some [ ("className", inputClassName p) ])).
Proof.
  unfold FileInput. cbn [containerClass].
  rewrite fileInputFn_get by (simpl; tauto). reflexivity.
Qed.

Lemma inputClass_resolvers (cn : list value -> string)
    (p : FileInputProps) :
  inputClass (FileInput cn p)
  = Some (cn [ VString
                 (slotResolver cn FileInput.slotBases FileInput.slotVariants
                    [] FileInput.defaults (variantProps p) "input" None);
               VString
                 (slotResolver cn FileInput.slotBases FileInput.slotVariants
                    [] FileInput.defaults (variantProps p) "button" None) ]).
Proof.
  unfold FileInput. cbn [inputClass].
  rewrite !fileInputFn_get by (simpl; tauto). reflexivity.
Qed.

(** The slot classes follow the props object through the class list of
    the slot. *)
Lemma slotResolver_same (cn : list value -> string) (props props' : Props)
    (slotName : string) (slotProps : option Props) :
  slotVariantClasses slotName props (Some FileInput.slotVariants) []
    FileInput.defaults
  = slotVariantClasses slotName props' (Some FileInput.slotVariants) []
      FileInput.defaults ->
  slotResolver cn FileInput.slotBases FileInput.slotVariants []
    FileInput.defaults props slotName slotProps
  = slotResolver cn FileInput.slotBases FileInput.slotVariants []
      FileInput.defaults props' slotName slotProps.
Proof.
  intros H. unfold slotResolver, resolveSlotsVariantClasses. now rewrite H.
Qed.

(** An axis with the single key ['true'] whose record has no entry for a
    slot pushes nothing for that slot, whatever the prop holds. *)
Lemma flag_axis_outside_slot (slotName : string) (props : Props)
    (variants : Variants) (defaults : DefaultVariants) (axis : string)
    (entries : Obj string) (classes : list string) :
  get variants axis = Some [ ("true", SlotClasses entries) ] ->
  get entries slotName = None ->
  slotVariantStep slotName props variants defaults classes axis = classes.
Proof.
  intros Hdef Hout. rewrite slotVariantStep_closed.
  unfold Rules.slotAxisClasses, Rules.configured. cbv zeta. rewrite Hdef.
  destruct (nullish _); [apply app_nil_r|]. cbn [get].
  destruct (String.eqb "true" _); [|apply app_nil_r].
  rewrite Hout. apply app_nil_r.
Qed.

(** X10.  The three resolvers the component destructures from the result
    of [fileInput] are declared slots: whatever the props, the class of
    the container and the class of the input element are defined. *)
Theorem component_slots_are_declared (cn : list value -> string)
    (p : FileInputProps) :
  containerClass (FileInput cn p) <> None
  /\ inputClass (FileInput cn p) <> None.
Proof.
  rewrite containerClass_resolver, inputClass_resolvers.
  split; discriminate.
Qed.

(** X11.  The flags stay in their slots.  [clearable] does not change the
    class of the container, and [error] does not change the class of the
    input element, whatever values they are given and whatever function
    [cn] is. *)
Theorem flags_stay_in_their_slots (cn : list value -> string)
    (p : FileInputProps) (x : value) :
  containerClass (FileInput cn (withClearable p x))
  = containerClass (FileInput cn p)
  /\ inputClass (FileInput cn (withError p x)) = inputClass (FileInput cn p).
Proof.
  split.
  - rewrite !containerClass_resolver. f_equal.
    apply slotResolver_same. apply slotVariantClasses_same_on.
    + intros k Hk classes. simpl in Hk.
      destruct Hk as [<-|[<-|[<-|[<-|[<-|[]]]]]];
        try (apply slotVariantStep_same_at; reflexivity).
      rewrite !(flag_axis_outside_slot "container" _ FileInput.slotVariants
                  FileInput.defaults "clearable" _ _
                  eq_refl eq_refl).
      reflexivity.
    + intros c [].
  - rewrite !inputClass_resolvers.
    assert (Hslot : forall slotName,
               slotName = "input" \/ slotName = "button" ->
               slotVariantClasses slotName (variantProps (withError p x))
                 (Some FileInput.slotVariants) [] FileInput.defaults
               = slotVariantClasses slotName (variantProps p)
                   (Some FileInput.slotVariants) [] FileInput.defaults).
    { intros slotName Hslot. apply slotVariantClasses_same_on.
      - intros k Hk classes. simpl in Hk.
        destruct Hk as [<-|[<-|[<-|[<-|[<-|[]]]]]];
          try (apply slotVariantStep_same_at; reflexivity).
        destruct Hslot as [-> | ->].
        + rewrite !(flag_axis_outside_slot "input" _ FileInput.slotVariants
                      FileInput.defaults "error" _ _ eq_refl eq_refl).
          reflexivity.
        + rewrite !(flag_axis_outside_slot "button" _ FileInput.slotVariants
                      FileInput.defaults "error" _ _ eq_refl eq_refl).
          reflexivity.
      - intros c []. }
    rewrite (slotResolver_same cn _ _ "input" None
               (Hslot "input" (or_introl eq_refl))).
    rewrite (slotResolver_same cn _ _ "button" None
               (Hslot "button" (or_intror eq_refl))).
    reflexivity.
Qed.

(** X12.  A falsy [error] (the empty string in particular) is no error:
    the component computes what it computes with [error] left out: no
    error classes on the container, no error text, the helper text as
    without error. *)
Theorem falsy_error_is_no_error (cn : list value -> string)
    (p : FileInputProps) (e : value) :
  truthy e = false ->
  FileInput cn (withError p e) = FileInput cn (withError p VUndefined).
Proof.
  intros He. unfold FileInput, variantProps, withError.
  cbn [className variant size disabled label error clearable helperText
       inputClassName errorClassName helperClassName].
  rewrite He. reflexivity.
Qed.

(** Witness of X12: [error=""] on the call of the test page. *)
Lemma falsy_error_is_no_error_witness :
  FileInput ClassNames.cn (withError testPageProps (VString ""))
  = FileInput ClassNames.cn (withError testPageProps VUndefined)
  /\ errorClass
       (FileInput ClassNames.cn (withError testPageProps (VString "")))
     = None.
Proof.
  split; [|reflexivity].
  exact (falsy_error_is_no_error ClassNames.cn testPageProps (VString "")
           eq_refl).
Defined.

(** X13.  The helper text and the error text are never rendered together:
    the error text is rendered exactly when [error] is truthy, the helper
    text exactly when [error] is falsy and [helperText] is truthy. *)
Theorem helper_and_error_exclude_each_other (cn : list value -> string)
    (p : FileInputProps) :
  (helperClass (FileInput cn p) = None \/ errorClass (FileInput cn p) = None)
  /\ (errorClass (FileInput cn p) <> None <-> truthy (error p) = true)
  /\ (helperClass (FileInput cn p) <> None
      <-> truthy (error p) = false /\ nodeTruthy (helperText p) = true).
Proof.
  unfold FileInput. cbn [helperClass errorClass].
  destruct (truthy (error p)); destruct (nodeTruthy (helperText p)); simpl;
    repeat split; try tauto; try discriminate; try congruence;
    intros H; try (now destruct H); try (now exfalso; apply H).
Qed.

Lemma resolved_on_component_props (p p' : FileInputProps) :
  coalesce (paramDefault (variant p) (VString "outline")) (VString "outline")
  = coalesce (paramDefault (variant p') (VString "outline"))
      (VString "outline") ->
  coalesce (paramDefault (size p) (VString "md")) (VString "md")
  = coalesce (paramDefault (size p') (VString "md")) (VString "md") ->
  disabled p = disabled p' -> error p = error p' ->
  clearable p = clearable p' ->
  forall key,
    resolved (variantProps p) FileInput.defaults key
    = resolved (variantProps p') FileInput.defaults key.
Proof.
  intros Hv Hs Hd He Hc key.
  unfold resolved, prop, variantProps, FileInput.defaults. cbn [get].
  rewrite Hd, He, Hc.
  destruct (String.eqb "variant" key); [exact Hv|].
  destruct (String.eqb "size" key); [exact Hs|].
  reflexivity.
Qed.

(** The classes of the container and of the input element follow the
    resolved values of the props object and [inputClassName]. *)
Lemma classes_follow_resolved (cn : list value -> string)
    (p p' : FileInputProps) :
  (forall key,
      resolved (variantProps p) FileInput.defaults key
      = resolved (variantProps p') FileInput.defaults key) ->
  inputClassName p = inputClassName p' ->
  containerClass (FileInput cn p) = containerClass (FileInput cn p')
  /\ inputClass (FileInput cn p) = inputClass (FileInput cn p').
Proof.
  intros Hsame Hcls.
  assert (Hslot : forall slotName,
             slotVariantClasses slotName (variantProps p)
               (Some FileInput.slotVariants) [] FileInput.defaults
             = slotVariantClasses slotName (variantProps p')
                 (Some FileInput.slotVariants) [] FileInput.defaults).
  { intros slotName. now apply slotVariantClasses_same. }
  rewrite !containerClass_resolver, !inputClass_resolvers, Hcls.
  rewrite (slotResolver_same cn (variantProps p) (variantProps p')
             "container" _ (Hslot "container")).
  rewrite (slotResolver_same cn (variantProps p) (variantProps p')
             "input" None (Hslot "input")).
  rewrite (slotResolver_same cn (variantProps p) (variantProps p')
             "button" None (Hslot "button")).
  split; reflexivity.
Qed.

(** X14.  The component and the resolver default in two layers, and both
    lead to the same classes: a [variant] that is [undefined] (replaced by
    the parameter default) or [null] (replaced by [defaultVariants]) gives
    the classes of ['outline'], and a [size] that is [undefined] or [null]
    gives the classes of ['md']. *)
Theorem nullish_variant_and_size_use_the_defaults
    (cn : list value -> string) (p : FileInputProps) :
  (nullish (variant p) = true ->
   containerClass (FileInput cn p)
   = containerClass (FileInput cn (withVariant p (VString "outline")))
   /\ inputClass (FileInput cn p)
      = inputClass (FileInput cn (withVariant p (VString "outline"))))
  /\ (nullish (size p) = true ->
      containerClass (FileInput cn p)
      = containerClass (FileInput cn (withSize p (VString "md")))
      /\ inputClass (FileInput cn p)
         = inputClass (FileInput cn (withSize p (VString "md")))).
Proof.
  split; intros Hnull.
  - apply classes_follow_resolved; [|reflexivity].
    apply resolved_on_component_props; try reflexivity.
    cbn [withVariant variant]. now destruct (variant p).
  - apply classes_follow_resolved; [|reflexivity].
    apply resolved_on_component_props; try reflexivity.
    cbn [withSize size]. now destruct (size p).
Qed.

(** Witness of X14: [size={null}] on the call of the test page. *)
Lemma nullish_variant_and_size_use_the_defaults_witness :
  containerClass (FileInput ClassNames.cn (withSize testPageProps VNull))
  = containerClass
      (FileInput ClassNames.cn (withSize testPageProps (VString "md")))
  /\ inputClass (FileInput ClassNames.cn (withSize testPageProps VNull))
     = inputClass
         (FileInput ClassNames.cn (withSize testPageProps (VString "md"))).
Proof.
  exact (proj2 (nullish_variant_and_size_use_the_defaults ClassNames.cn
                  (withSize testPageProps VNull)) eq_refl).
Defined.

End ComponentFacts.
